(** * Meal Planning MCP server: a shallow embedding of
      [mcp-servers/meal-planning/meal_planning_server.py]

    The development follows the Python module top to bottom:

    - Python values as they come out of [response.json()] and out of the
      tool's arguments ([pyval]), dictionaries in insertion order;
    - the part of the Python runtime the module calls but does not define
      ([repr] of floats and strings, [datetime.fromisoformat],
      [json.dumps]) as the interface [PyRuntime]; [str.strip],
      [str.replace], [sorted] and [strftime("%A, %B %d %Y")] are written out;
    - exceptions as a result type, effects (the HTTP request, [print]) as a
      trace produced by a small monad over the process environment;
    - [call_spoonacular], [format_meal_plan], [_generate_meal_plan_internal],
      [generate_meal_plan] and [run_cli];
    - the properties of the specification, one theorem per claim. *)

From Stdlib Require Import ZArith NArith Bool List String Ascii Lia.
From Stdlib Require Import DecimalString Sorted Permutation.
From Stdlib Require Import PrimFloat.
Import ListNotations.

Open Scope string_scope.
Open Scope Z_scope.

Set Warnings "-register-all".

(** [++] is the concatenation of strings throughout; lists are appended
    with [+++]. *)
Infix "+++" := (@app _) (right associativity, at level 60).

(** ** Python values *)

(** A Python [str] is kept as the bytes of its UTF-8 encoding; a [dict] is a
    list of bindings in insertion order, its keys are strings (JSON objects
    and the dictionaries the module builds have no other keys). *)
Inductive pyval : Type :=
| VNone
| VBool (b : bool)
| VInt (z : Z)
| VFloat (f : float)
| VStr (s : string)
| VList (l : list pyval)
| VDict (d : list (string * pyval)).

Definition pydict : Type := list (string * pyval).

(** [bool(v)]: the test of [if v:]. *)
Definition truthy (v : pyval) : bool :=
  match v with
  | VNone => false
  | VBool b => b
  | VInt z => negb (z =? 0)
  | VFloat f => negb (PrimFloat.eqb f 0%float)
  | VStr s => negb (s =? "")%string
  | VList l => match l with [] => false | _ => true end
  | VDict d => match d with [] => false | _ => true end
  end.

(** [type(v).__name__], as it appears in the messages of [AttributeError]
    and [TypeError]. *)
Definition type_name (v : pyval) : string :=
  match v with
  | VNone => "NoneType"
  | VBool _ => "bool"
  | VInt _ => "int"
  | VFloat _ => "float"
  | VStr _ => "str"
  | VList _ => "list"
  | VDict _ => "dict"
  end.

Definition is_dict (v : pyval) : bool :=
  match v with VDict _ => true | _ => false end.

(** [d.get(key)] on the bindings: the first binding of the key. *)
Fixpoint dict_get (key : string) (d : pydict) : option pyval :=
  match d with
  | [] => None
  | (k, v) :: d' => if (k =? key)%string then Some v else dict_get key d'
  end.

(** [d[key] = v]: replaces the value in place, or appends a new binding. *)
Fixpoint dict_set (key : string) (v : pyval) (d : pydict) : pydict :=
  match d with
  | [] => [(key, v)]
  | (k, v0) :: d' =>
      if (k =? key)%string then (k, v) :: d' else (k, v0) :: dict_set key v d'
  end.

Definition dict_keys (d : pydict) : list string := map fst d.

(** Optional arguments ([Optional[int]], [Optional[str]]) as values. *)
Definition of_opt_int (o : option Z) : pyval :=
  match o with Some z => VInt z | None => VNone end.

Definition of_opt_str (o : option string) : pyval :=
  match o with Some s => VStr s | None => VNone end.

(** ** Strings *)

Definition nl : string := String (ascii_of_nat 10) EmptyString.

(** [sep.join(ls)]. *)
Definition join (sep : string) (ls : list string) : string := String.concat sep ls.

(** [s * n]. *)
Fixpoint str_mul (s : string) (n : nat) : string :=
  match n with
  | O => ""
  | S n' => s ++ str_mul s n'
  end.

(** [str(z)] for an [int]. *)
Definition str_of_Z (z : Z) : string := NilZero.string_of_int (Z.to_int z).

(** [s.replace(c, by)] for a one-character ASCII pattern [c]: an ASCII byte
    is never part of a longer UTF-8 sequence, so the bytes can be scanned. *)
Fixpoint replace_char (c : ascii) (by_ : string) (s : string) : string :=
  match s with
  | EmptyString => EmptyString
  | String a s' =>
      if Ascii.eqb a c then by_ ++ replace_char c by_ s'
      else String a (replace_char c by_ s')
  end.

(** *** [str.strip()]

    The characters [str.isspace] accepts, by their UTF-8 encoding:
    U+0009..U+000D, U+001C..U+0020 (one byte); U+0085, U+00A0 (two bytes);
    U+1680, U+2000..U+200A, U+2028, U+2029, U+202F, U+205F, U+3000 (three). *)
Definition ord (c : ascii) : N := N_of_ascii c.

Definition space1 (a : ascii) : bool :=
  ((9 <=? ord a) && (ord a <=? 13) || (28 <=? ord a) && (ord a <=? 32))%N.

Definition space2 (a b : ascii) : bool :=
  ((ord a =? 194) && ((ord b =? 133) || (ord b =? 160)))%N.

Definition space3 (a b c : ascii) : bool :=
  ((ord a =? 225) && (ord b =? 154) && (ord c =? 128)
   || (ord a =? 226) && (ord b =? 128)
      && ((128 <=? ord c) && (ord c <=? 138)
          || (ord c =? 168) || (ord c =? 169) || (ord c =? 175))
   || (ord a =? 226) && (ord b =? 129) && (ord c =? 159)
   || (ord a =? 227) && (ord b =? 128) && (ord c =? 128))%N.

Fixpoint lstrip (s : string) : string :=
  match s with
  | EmptyString => EmptyString
  | String a s1 =>
      if space1 a then lstrip s1
      else match s1 with
           | EmptyString => s
           | String b s2 =>
               if space2 a b then lstrip s2
               else match s2 with
                    | EmptyString => s
                    | String c s3 => if space3 a b c then lstrip s3 else s
                    end
           end
  end.

(** The same scan from the other end, on the reversed bytes. *)
Fixpoint rstrip_rev (l : list ascii) : list ascii :=
  match l with
  | [] => []
  | c :: l1 =>
      if space1 c then rstrip_rev l1
      else match l1 with
           | [] => l
           | b :: l2 =>
               if space2 b c then rstrip_rev l2
               else match l2 with
                    | [] => l
                    | a :: l3 => if space3 a b c then rstrip_rev l3 else l
                    end
           end
  end.

Definition rstrip (s : string) : string :=
  string_of_list_ascii (rev (rstrip_rev (rev (list_ascii_of_string s)))).

Definition strip (s : string) : string := rstrip (lstrip s).

(** The characters of a [str], as iterating over it yields them: a byte
    [10xxxxxx] continues the character before it. *)
Definition continuation (a : ascii) : bool :=
  ((128 <=? ord a) && (ord a <=? 191))%N.

Fixpoint chars_from (cur : string) (s : string) : list string :=
  match s with
  | EmptyString => [cur]
  | String a s' =>
      if continuation a then chars_from (cur ++ String a EmptyString) s'
      else cur :: chars_from (String a EmptyString) s'
  end.

Definition chars (s : string) : list string :=
  match s with
  | EmptyString => []
  | String a s' => chars_from (String a EmptyString) s'
  end.

(** *** [sorted] on strings

    Python compares strings by code point, which on UTF-8 is the order of
    the bytes: [String.leb].  [sorted] is stable; insertion before the first
    greater element is. *)
Fixpoint insert_sorted (x : string) (l : list string) : list string :=
  match l with
  | [] => [x]
  | y :: l' => if String.leb x y then x :: l else y :: insert_sorted x l'
  end.

Fixpoint sorted (l : list string) : list string :=
  match l with
  | [] => []
  | x :: l' => insert_sorted x (sorted l')
  end.

(** ** Dates: [datetime] and [strftime("%A, %B %d %Y")] *)

Record datetime : Type := mk_datetime {
  dt_year : Z;
  dt_month : Z;
  dt_day : Z;
  dt_hour : Z;
  dt_minute : Z;
  dt_second : Z
}.

Definition is_leap (y : Z) : bool :=
  (y mod 4 =? 0) && (negb (y mod 100 =? 0) || (y mod 400 =? 0)).

(** Days before January 1st of year [y] (proleptic Gregorian ordinal). *)
Definition days_before_year (y : Z) : Z :=
  let y1 := y - 1 in
  y1 * 365 + y1 / 4 - y1 / 100 + y1 / 400.

Definition days_before_month (y m : Z) : Z :=
  nth (Z.to_nat m) [0; 0; 31; 59; 90; 120; 151; 181; 212; 243; 273; 304; 334] 0
  + (if (2 <? m) && is_leap y then 1 else 0).

Definition toordinal (d : datetime) : Z :=
  days_before_year (dt_year d) + days_before_month (dt_year d) (dt_month d)
  + dt_day d.

(** [d.weekday()]: Monday is 0. *)
Definition weekday (d : datetime) : Z := (toordinal d + 6) mod 7.

Definition day_name (w : Z) : string :=
  nth (Z.to_nat w)
      ["Monday"; "Tuesday"; "Wednesday"; "Thursday"; "Friday"; "Saturday";
       "Sunday"] "".

Definition month_name (m : Z) : string :=
  nth (Z.to_nat m)
      [""; "January"; "February"; "March"; "April"; "May"; "June"; "July";
       "August"; "September"; "October"; "November"; "December"] "".

(** [%d]: the day of the month on two digits. *)
Definition two_digits (n : Z) : string :=
  if n <? 10 then "0" ++ str_of_Z n else str_of_Z n.

(** [d.strftime("%A, %B %d %Y")] in the C locale (the module never sets
    another one); [%Y] is the year in decimal, as glibc prints it. *)
Definition strftime_long (d : datetime) : string :=
  day_name (weekday d) ++ ", " ++ month_name (dt_month d) ++ " "
  ++ two_digits (dt_day d) ++ " " ++ str_of_Z (dt_year d).

(** ** The runtime the module calls into

    What the module uses of CPython and does not define, and which is not
    written out here: the shortest-digits [repr] of a float, the [repr] of
    a string (quoting and escapes follow the Unicode tables), the grammar of
    [datetime.fromisoformat] (it changed between versions; [None] stands for
    the [ValueError] it raises) and the serialisation of [json.dumps]. *)
Record PyRuntime : Type := {
  float_repr : float -> string;
  str_repr : string -> string;
  fromisoformat : string -> option datetime;
  json_dumps : pyval -> string
}.

(** ** Exceptions *)

Inductive exn_class : Type :=
| AttributeError
| TypeError
| ValueError
| RuntimeError
| KeyError
| HTTPError              (* requests.exceptions.HTTPError *)
| RequestException.      (* any other failure of [requests]: connection,
                            timeout, a body that is not JSON *)

Record exn : Type := Exn { exn_class_of : exn_class; exn_msg : string }.

Inductive result (A : Type) : Type :=
| Ok (a : A)
| Raise (e : exn).

Arguments Ok {A} a.
Arguments Raise {A} e.

Definition rbind {A B : Type} (r : result A) (k : A -> result B) : result B :=
  match r with
  | Ok a => k a
  | Raise e => Raise e
  end.

Notation "'let?' x ':=' r 'in' k" := (rbind r (fun x => k))
  (at level 10, x pattern, r at level 100, k at level 200).

(** A [for] loop that appends the lines of each element, stopping at the
    first exception. *)
Fixpoint concat_map_r {A : Type} (f : A -> result (list string)) (l : list A)
  : result (list string) :=
  match l with
  | [] => Ok []
  | x :: l' =>
      let? ls := f x in
      let? rest := concat_map_r f l' in
      Ok (ls +++ rest)
  end.

Definition no_attribute (v : pyval) (attr : string) : exn :=
  Exn AttributeError
      ("'" ++ type_name v ++ "' object has no attribute '" ++ attr ++ "'").

Definition not_iterable (v : pyval) : exn :=
  Exn TypeError ("'" ++ type_name v ++ "' object is not iterable").

(** [v.get(key, default)]: only a [dict] has the method. *)
Definition py_get (v : pyval) (key : string) (default : pyval) : result pyval :=
  match v with
  | VDict d =>
      Ok (match dict_get key d with Some x => x | None => default end)
  | _ => Raise (no_attribute v "get")
  end.

(** [for x in v]: the elements of a list, the keys of a dict, the
    characters of a string. *)
Definition py_iter (v : pyval) : result (list pyval) :=
  match v with
  | VList l => Ok l
  | VDict d => Ok (map VStr (dict_keys d))
  | VStr s => Ok (map VStr (chars s))
  | _ => Raise (not_iterable v)
  end.

Section Runtime.

Context (rt : PyRuntime).

(** [repr(v)] and [str(v)]; an f-string field [{v}] is [str(v)]. *)
Fixpoint py_repr (v : pyval) : string :=
  match v with
  | VNone => "None"
  | VBool true => "True"
  | VBool false => "False"
  | VInt z => str_of_Z z
  | VFloat f => float_repr rt f
  | VStr s => str_repr rt s
  | VList l => "[" ++ join ", " (map py_repr l) ++ "]"
  | VDict d =>
      "{"
      ++ join ", " (map (fun '(k, x) => str_repr rt k ++ ": " ++ py_repr x) d)
      ++ "}"
  end.

Definition py_str (v : pyval) : string :=
  match v with
  | VStr s => s
  | _ => py_repr v
  end.

End Runtime.

(** ** [format_meal_plan] *)

Section Formatter.

Context (rt : PyRuntime).

(** [v[key]] for a string key. *)
Definition py_getitem (v : pyval) (key : string) : result pyval :=
  match v with
  | VDict d =>
      match dict_get key d with
      | Some x => Ok x
      | None => Raise (Exn KeyError (str_repr rt key))
      end
  | VList _ =>
      Raise (Exn TypeError "list indices must be integers or slices, not str")
  | VStr _ => Raise (Exn TypeError "string indices must be integers, not 'str'")
  | _ => Raise (Exn TypeError ("'" ++ type_name v ++ "' object is not subscriptable"))
  end.

(** Lines 53-62: the date shown on the second line.  Whatever the [try]
    block raises is caught: a string that does not parse, and the
    [AttributeError] of [.replace] on a value that is not a string, both
    leave the raw value. *)
Definition readable_date (now : datetime) (preferences : pydict) : pyval :=
  let event_date :=
    match dict_get "eventDate" preferences with Some v => v | None => VNone end in
  if truthy event_date then
    match event_date with
    | VStr s =>
        match fromisoformat rt (replace_char "Z" "+00:00" s) with
        | Some d => VStr (strftime_long d)
        | None => event_date
        end
    | _ => event_date
    end
  else VStr (strftime_long now).

(** The pattern [if v.get(key): lines.append(f"...{v[key]}...")]. *)
Definition optional_line (v : pyval) (key : string) (render : string -> string)
  : result (list string) :=
  let? x := py_get v key VNone in
  if truthy x then
    let? y := py_getitem v key in
    Ok [render (py_str rt y)]
  else Ok [].

(** Lines 88-97: one meal. *)
Definition meal_block (meal : pyval) : result (list string) :=
  let? title := py_get meal "title" (VStr "Untitled Meal") in
  let? ready :=
    optional_line meal "readyInMinutes"
                  (fun x => "   Ready in: " ++ x ++ " minutes") in
  let? servings :=
    optional_line meal "servings" (fun x => "   Servings: " ++ x) in
  let? url :=
    optional_line meal "id"
                  (fun x => "   Recipe URL: https://spoonacular.com/recipes/-" ++ x) in
  Ok (["🍽️ " ++ py_str rt title] +++ ready +++ servings +++ url +++ [""]).

(** Lines 85-98: one day. *)
Definition day_block (day : string) (meals : list pyval) : result (list string) :=
  let? ls := concat_map_r meal_block meals in
  Ok (["DAY " ++ day; str_mul "-" 30] +++ ls +++ [""]).

(** Line 81: the label a meal is grouped under. *)
Definition day_of (meal : pyval) : result string :=
  let? day := py_get meal "day" (VStr "Unknown") in
  Ok (py_str rt day).

(** Line 82, [grouped.setdefault(day, []).append(meal)]: the meal goes to
    the end of the list of its day; a new day goes to the end of the dict. *)
Fixpoint setdefault_append (day : string) (meal : pyval)
         (grouped : list (string * list pyval)) : list (string * list pyval) :=
  match grouped with
  | [] => [(day, [meal])]
  | (k, ms) :: g' =>
      if (k =? day)%string then (k, ms +++ [meal]) :: g'
      else (k, ms) :: setdefault_append day meal g'
  end.

(** Lines 80-82: the loop over the meals. *)
Fixpoint group_meals (meals : list pyval) (grouped : list (string * list pyval))
  : result (list (string * list pyval)) :=
  match meals with
  | [] => Ok grouped
  | meal :: rest =>
      let? day := day_of meal in
      group_meals rest (setdefault_append day meal grouped)
  end.

(** [grouped[day]]. *)
Fixpoint grouped_item (day : string) (grouped : list (string * list pyval))
  : result (list pyval) :=
  match grouped with
  | [] => Raise (Exn KeyError (str_repr rt day))
  | (k, ms) :: g' => if (k =? day)%string then Ok ms else grouped_item day g'
  end.

(** Lines 79-98, entered when [meals] is a list. *)
Definition meals_block (meals : list pyval) : result (list string) :=
  let? grouped := group_meals meals [] in
  concat_map_r
    (fun day => let? ms := grouped_item day grouped in day_block day ms)
    (sorted (map fst grouped)).

(** Lines 102-108. *)
Definition nutrients_block (nutrients : pyval) : result (list string) :=
  let? calories := py_get nutrients "calories" (VStr "N/A") in
  let? protein := py_get nutrients "protein" (VStr "N/A") in
  let? fat := py_get nutrients "fat" (VStr "N/A") in
  let? carbohydrates := py_get nutrients "carbohydrates" (VStr "N/A") in
  Ok [str_mul "=" 50;
      "NUTRITION SUMMARY";
      str_mul "-" 30;
      "Calories: " ++ py_str rt calories;
      "Protein: " ++ py_str rt protein ++ "g";
      "Fat: " ++ py_str rt fat ++ "g";
      "Carbohydrates: " ++ py_str rt carbohydrates ++ "g"].

(** Lines 116-121: one grocery item. *)
Definition item_line (item : pyval) : result (list string) :=
  let? name := py_get item "name" (VStr "Unnamed Item") in
  let? aisle := py_get item "aisle" VNone in
  if truthy aisle then
    Ok ["☑ " ++ py_str rt name ++ " (" ++ py_str rt aisle ++ ")"]
  else Ok ["☑ " ++ py_str rt name].

(** Lines 112-121. *)
Definition items_block (items : pyval) : result (list string) :=
  let? its := py_iter items in
  let? ls := concat_map_r item_line its in
  Ok ([nl ++ str_mul "=" 50; "GROCERY LIST"; str_mul "-" 30] +++ ls).

(** Lines 67-74: a preference line, present when the preference is truthy. *)
Definition pref_line (label key : string) (preferences : pydict)
  : result (list string) :=
  optional_line (VDict preferences) key (fun x => label ++ x).

(** Lines 67-74: the preference lines. *)
Definition preference_lines (preferences : pydict) : result (list string) :=
  let? family := pref_line "Family Size: " "familySize" preferences in
  let? diet := pref_line "Dietary Preference: " "diet" preferences in
  let? exclude := pref_line "Exclusions: " "exclude" preferences in
  let? calories := pref_line "Daily Calorie Target: " "targetCalories" preferences in
  Ok (family +++ diet +++ exclude +++ calories).

(** Lines 77-121: the lines that come from the plan. *)
Definition plan_lines (meal_plan : pyval) : result (list string) :=
  let? meals := py_get meal_plan "meals" VNone in
  let? meal_lines :=
    match meals with
    | VList ms => meals_block ms
    | _ => Ok []
    end in
  let? nutrients := py_get meal_plan "nutrients" VNone in
  let? nutrient_lines :=
    if truthy nutrients then nutrients_block nutrients else Ok [] in
  let? items := py_get meal_plan "items" VNone in
  let? item_lines := if truthy items then items_block items else Ok [] in
  Ok (meal_lines +++ nutrient_lines +++ item_lines).

(** [format_meal_plan(meal_plan, preferences)]; [now] is what
    [datetime.utcnow()] returns during the call. *)
Definition format_meal_plan (now : datetime) (meal_plan : pyval)
           (preferences : pydict) : result string :=
  let head :=
    ["WEEKLY MEAL PLAN";
     "Generated: " ++ py_str rt (readable_date now preferences) ++ nl] in
  let? prefs := preference_lines preferences in
  let rule := [nl ++ str_mul "=" 50 ++ nl] in
  let? body := plan_lines meal_plan in
  Ok (strip (join nl (head +++ prefs +++ rule +++ body))).

End Formatter.

(** ** The process: environment, network, clock *)

(** The arguments of [requests.get(url, params=..., timeout=...)]. *)
Record request : Type := mk_request {
  req_url : string;
  req_params : pydict;
  req_timeout : Z
}.

(** What the module reads of a [requests.Response]; [json_body] is the
    outcome of [response.json()]. *)
Record response : Type := mk_response {
  status_code : Z;
  reason : string;
  resp_url : string;
  json_body : result pyval
}.

(** What the process does to the outside. *)
Inductive event : Type :=
| EvGet (r : request)        (* an HTTP GET was issued *)
| EvPrint (s : string).      (* a line was printed on standard output *)

(** What the outside is to the process: [os.environ] when the module is
    imported, the answer (or the exception) of [requests.get] to a request,
    and the UTC time of the call. *)
Record world : Type := mk_world {
  environ : string -> option string;
  network : request -> result response;
  utcnow : datetime
}.

(** A computation reads the world and yields a value or an exception,
    together with the events it caused, in order. *)
Definition M (A : Type) : Type := world -> result A * list event.

Definition ret {A : Type} (a : A) : M A := fun _ => (Ok a, []).

Definition raise {A : Type} (e : exn) : M A := fun _ => (Raise e, []).

Definition bind {A B : Type} (m : M A) (k : A -> M B) : M B :=
  fun w =>
    match m w with
    | (Ok a, t) => let (r, t') := k a w in (r, t +++ t')
    | (Raise e, t) => (Raise e, t)
    end.

Notation "'let!' x ':=' m 'in' k" := (bind m (fun x => k))
  (at level 10, x pattern, m at level 100, k at level 200).

Definition lift {A : Type} (r : result A) : M A := fun _ => (r, []).

(** [try: m except Exception as e: h e]. *)
Definition try_except {A : Type} (m : M A) (h : exn -> M A) : M A :=
  fun w =>
    match m w with
    | (Ok a, t) => (Ok a, t)
    | (Raise e, t) => let (r, t') := h e w in (r, t +++ t')
    end.

Definition requests_get (r : request) : M response :=
  fun w => (network w r, [EvGet r]).

Definition print (s : string) : M unit := fun _ => (Ok tt, [EvPrint s]).

Definition get_utcnow : M datetime := fun w => (Ok (utcnow w), []).

(** The events of a run, and its outcome. *)
Definition events {A : Type} (m : M A) (w : world) : list event := snd (m w).
Definition outcome {A : Type} (m : M A) (w : world) : result A := fst (m w).

(** The requests among the events. *)
Fixpoint requests_of (t : list event) : list request :=
  match t with
  | [] => []
  | EvGet r :: t' => r :: requests_of t'
  | EvPrint _ :: t' => requests_of t'
  end.

(** ** [call_spoonacular] *)

(** Line 25: [os.getenv("SPOONACULAR_API_KEY", "")], read at import (the
    import also reports on standard error whether the key was found). *)
Definition SPOONACULAR_API_KEY (w : world) : string :=
  match environ w "SPOONACULAR_API_KEY" with
  | Some v => v
  | None => ""
  end.

Definition SPOONACULAR_BASE_URL : string := "https://api.spoonacular.com".

(** [response.raise_for_status()]. *)
Definition raise_for_status (r : response) : result unit :=
  if (400 <=? status_code r) && (status_code r <? 500) then
    Raise (Exn HTTPError (str_of_Z (status_code r) ++ " Client Error: "
                          ++ reason r ++ " for url: " ++ resp_url r))
  else if (500 <=? status_code r) && (status_code r <? 600) then
    Raise (Exn HTTPError (str_of_Z (status_code r) ++ " Server Error: "
                          ++ reason r ++ " for url: " ++ resp_url r))
  else Ok tt.

Definition call_spoonacular (endpoint : string) (params : pydict) : M pyval :=
  fun w =>
    (if (SPOONACULAR_API_KEY w =? "")%string then
       raise (Exn RuntimeError
                  "SPOONACULAR_API_KEY environment variable is not set.")
     else
       let params := dict_set "apiKey" (VStr (SPOONACULAR_API_KEY w)) params in
       let! response :=
         requests_get (mk_request (SPOONACULAR_BASE_URL ++ endpoint) params 30) in
       let! _ := lift (raise_for_status response) in
       lift (json_body response)) w.

(** ** [_generate_meal_plan_internal], [generate_meal_plan], [run_cli] *)

Section Server.

Context (rt : PyRuntime).

(** Lines 135-141: the query parameters. *)
Definition upstream_params (time_frame : string) (target_calories : option Z)
           (diet exclude : option string) : pydict :=
  let params := [("timeFrame", VStr time_frame)] in
  let params :=
    if truthy (of_opt_int target_calories)
    then dict_set "targetCalories" (of_opt_int target_calories) params
    else params in
  let params :=
    if truthy (of_opt_str diet)
    then dict_set "diet" (of_opt_str diet) params else params in
  let params :=
    if truthy (of_opt_str exclude)
    then dict_set "exclude" (of_opt_str exclude) params else params in
  params.

(** The dictionary of preferences, built alike at lines 144, 194 and 259. *)
Definition preferences_of (family_size target_calories : option Z)
           (diet exclude event_date : option string) : pydict :=
  [("familySize", of_opt_int family_size);
   ("targetCalories", of_opt_int target_calories);
   ("diet", of_opt_str diet);
   ("exclude", of_opt_str exclude);
   ("eventDate", of_opt_str event_date)].

Definition _generate_meal_plan_internal
           (time_frame : string) (target_calories : option Z)
           (diet exclude : option string) (family_size : option Z)
           (event_date : option string) : M (pyval * string * pyval) :=
  let params := upstream_params time_frame target_calories diet exclude in
  let! meal_plan := call_spoonacular "/mealplanner/generate" params in
  let preferences :=
    preferences_of family_size target_calories diet exclude event_date in
  let! now := get_utcnow in
  let! doc_text := lift (format_meal_plan rt now meal_plan preferences) in
  ret (meal_plan, doc_text, VNone).

(** The tool; its defaults are [time_frame="week"] and [None] elsewhere. *)
Definition generate_meal_plan
           (time_frame : string) (target_calories : option Z)
           (diet exclude : option string) (family_size : option Z)
           (event_date : option string) : M string :=
  if negb ((time_frame =? "day")%string || (time_frame =? "week")%string) then
    raise (Exn ValueError "time_frame must be either 'day' or 'week'")
  else
    let! (meal_plan, doc_text, _) :=
      try_except
        (_generate_meal_plan_internal time_frame target_calories diet exclude
                                      family_size event_date)
        (fun error => raise (Exn RuntimeError (exn_msg error))) in
    let preferences :=
      preferences_of family_size target_calories diet exclude event_date in
    ret (json_dumps rt
           (VDict [("mealPlan", meal_plan);
                   ("formattedText", VStr doc_text);
                   ("document", VNone);
                   ("preferences", VDict preferences)])).

(** The namespace [argparse] returns; [--time-frame] is restricted to its
    two choices by the parser. *)
Record cli_args : Type := mk_cli_args {
  arg_time_frame : string;
  arg_target_calories : option Z;
  arg_diet : option string;
  arg_exclude : option string;
  arg_family_size : option Z;
  arg_event_date : option string
}.

(** [run_cli] after [parser.parse_args()]; the list [args_list] it builds
    at lines 228-244 is not used afterwards. *)
Definition run_cli (args : cli_args) : M unit :=
  let! (meal_plan, doc_text, document_info) :=
    _generate_meal_plan_internal
      (arg_time_frame args) (arg_target_calories args) (arg_diet args)
      (arg_exclude args) (arg_family_size args) (arg_event_date args) in
  let output :=
    VDict [("mealPlan", meal_plan);
           ("formattedText", VStr doc_text);
           ("document", document_info);
           ("preferences",
            VDict (preferences_of
                     (arg_family_size args) (arg_target_calories args)
                     (arg_diet args) (arg_exclude args)
                     (arg_event_date args)))] in
  print (json_dumps rt output).

End Server.

(** ** A runtime and a world to run the model on

    An instance of [PyRuntime] for concrete runs.  It agrees with CPython on
    the values the runs below contain: no float, no string inside a list or
    a dict, ASCII text, and dates written [YYYY-MM-DD] (which every version
    of [fromisoformat] accepts); everything else it rejects or renders
    arbitrarily.  The theorems quantify over every runtime. *)

Definition digit_of (a : ascii) : option Z :=
  if ((48 <=? ord a) && (ord a <=? 57))%N then Some (Z.of_N (ord a) - 48)
  else None.

Fixpoint number_of (acc : Z) (s : string) : option Z :=
  match s with
  | EmptyString => Some acc
  | String a s' =>
      match digit_of a with
      | Some d => number_of (10 * acc + d) s'
      | None => None
      end
  end.

Definition days_in_month (y m : Z) : Z :=
  if (m =? 2) && is_leap y then 29
  else nth (Z.to_nat m) [0; 31; 28; 31; 30; 31; 30; 31; 31; 30; 31; 30; 31] 0.

(** [YYYY-MM-DD], a valid date of the years 1 to 9999. *)
Definition parse_iso_date (s : string) : option datetime :=
  if negb (String.length s =? 10)%nat then None
  else if negb ((substring 4 1 s =? "-")%string && (substring 7 1 s =? "-")%string)
  then None
  else
    match number_of 0 (substring 0 4 s), number_of 0 (substring 5 2 s),
          number_of 0 (substring 8 2 s) with
    | Some y, Some m, Some d =>
        if (1 <=? y) && (1 <=? m) && (m <=? 12) && (1 <=? d)
           && (d <=? days_in_month y m)
        then Some (mk_datetime y m d 0 0 0)
        else None
    | _, _, _ => None
    end.

Definition dquote : string := String (ascii_of_nat 34) EmptyString.

Fixpoint json_escape (s : string) : string :=
  match s with
  | EmptyString => EmptyString
  | String a s' =>
      (if (ord a =? 10)%N then "\n"
       else if (ord a =? 34)%N then "\" ++ dquote
       else if (ord a =? 92)%N then "\\"
       else String a EmptyString) ++ json_escape s'
  end.

Fixpoint json_text (v : pyval) : string :=
  match v with
  | VNone => "null"
  | VBool true => "true"
  | VBool false => "false"
  | VInt z => str_of_Z z
  | VFloat _ => "NaN"
  | VStr s => dquote ++ json_escape s ++ dquote
  | VList l => "[" ++ join ", " (map json_text l) ++ "]"
  | VDict d =>
      "{"
      ++ join ", "
           (map (fun '(k, x) => dquote ++ json_escape k ++ dquote ++ ": "
                                ++ json_text x) d)
      ++ "}"
  end.

Definition sample_runtime : PyRuntime :=
  {| float_repr := fun _ => "nan";
     str_repr := fun s => "'" ++ s ++ "'";
     fromisoformat := parse_iso_date;
     json_dumps := json_text |}.

(** A plan of three meals tagged with the days 2, 1 and 1. *)
Definition meal (day title : string) (id : Z) : pyval :=
  VDict [("day", VStr day); ("title", VStr title); ("id", VInt id)].

Definition sample_meals : list pyval :=
  [meal "2" "Soup" 11; meal "1" "Salad" 12; meal "1" "Pasta" 13].

Definition sample_plan : pyval := VDict [("meals", VList sample_meals)].

(** A plan with a meal, a nutrient summary and two grocery items, most
    fields missing. *)
Definition sparse_plan : pyval :=
  VDict [("meals", VList [VDict [("servings", VInt 2)]]);
         ("nutrients", VDict [("calories", VInt 2000)]);
         ("items", VList [VDict [("name", VStr "Rice"); ("aisle", VStr "Grains")];
                          VDict []])].

Definition november_3 : datetime := mk_datetime 2026 11 3 9 30 0.
Definition november_4 : datetime := mk_datetime 2026 11 4 9 30 0.

(** A process with a credential, whose upstream answers every request with
    the sample plan. *)
Definition sample_world : world :=
  {| environ :=
       fun name => if (name =? "SPOONACULAR_API_KEY")%string then Some "k3y" else None;
     network := fun r => Ok (mk_response 200 "OK" (req_url r) (Ok sample_plan));
     utcnow := november_3 |}.

(** The same process without the credential. *)
Definition bare_world : world :=
  {| environ := fun _ => None;
     network := network sample_world;
     utcnow := november_3 |}.

(** ** Notions used in the statements *)

(** The request [_generate_meal_plan_internal] issues for given query
    parameters, and the exception of line 40. *)
Definition upstream_request (w : world) (params : pydict) : request :=
  mk_request (SPOONACULAR_BASE_URL ++ "/mealplanner/generate")
             (dict_set "apiKey" (VStr (SPOONACULAR_API_KEY w)) params) 30.

Definition no_credential : exn :=
  Exn RuntimeError "SPOONACULAR_API_KEY environment variable is not set.".

(** The dictionary both surfaces serialise. *)
Definition envelope (meal_plan : pyval) (doc_text : string) (document : pyval)
           (preferences : pydict) : pydict :=
  [("mealPlan", meal_plan);
   ("formattedText", VStr doc_text);
   ("document", document);
   ("preferences", VDict preferences)].

(** The plans the formatter is written for: an object whose [meals], when a
    list, holds objects; whose [nutrients], when truthy, is an object; whose
    [items], when truthy, is a list of objects. *)
Definition well_shaped (meal_plan : pyval) : bool :=
  match meal_plan with
  | VDict d =>
      match dict_get "meals" d with
      | Some (VList ms) => forallb is_dict ms
      | _ => true
      end
      && match dict_get "nutrients" d with
         | Some n => negb (truthy n) || is_dict n
         | None => true
         end
      && match dict_get "items" d with
         | Some (VList its) => forallb is_dict its
         | Some it => negb (truthy it)
         | None => true
         end
  | _ => false
  end.

(** [grouped[day]] without the exception: the meals gathered under a day. *)
Fixpoint group_of (day : string) (grouped : list (string * list pyval))
  : list pyval :=
  match grouped with
  | [] => []
  | (k, ms) :: g' => if (k =? day)%string then ms else group_of day g'
  end.

(** The meal is tagged with the day label [day]. *)
Definition tagged (rt : PyRuntime) (day : string) (meal : pyval) : bool :=
  match day_of rt meal with
  | Ok d => (d =? day)%string
  | Raise _ => false
  end.

(** The strict order of [sorted] on labels. *)
Definition label_lt (a b : string) : Prop := String.ltb a b = true.

(** The value of the [eventDate] preference, [None] when there is none. *)
Definition event_date_of (preferences : pydict) : pyval :=
  match dict_get "eventDate" preferences with
  | Some v => v
  | None => VNone
  end.

(** The outcome is a report whose second line shows the date [shown]. *)
Definition shows_date (shown : string) (r : result string) : Prop :=
  exists rest : string,
    r = Ok ("WEEKLY MEAL PLAN" ++ nl ++ "Generated: " ++ shown ++ nl ++ rest).

(** ** The report at import, and more notions for the statements *)

(** [len(s)]: the number of characters of a string. *)
Definition py_len (s : string) : Z := Z.of_nat (List.length (chars s)).

(** Lines 30-33: the line the import writes on standard error. *)
Definition startup_report (w : world) : string :=
  if negb (SPOONACULAR_API_KEY w =? "")%string then
    "✅ Spoonacular API key found (length: "
    ++ str_of_Z (py_len (SPOONACULAR_API_KEY w)) ++ ")"
  else "❌ Spoonacular API key NOT found in environment".

(** [d.get(key)] on a dictionary: [None] when the key is missing. *)
Definition get_or_none (key : string) (d : pydict) : pyval :=
  match dict_get key d with
  | Some v => v
  | None => VNone
  end.

(** A meal object without a [day] entry. *)
Definition untagged (meal : pyval) : bool :=
  match meal with
  | VDict d => match dict_get "day" d with None => true | Some _ => false end
  | _ => false
  end.

(** The line of a preference, when there is one. *)
Definition pref_text (rt : PyRuntime) (label : string) (v : pyval) : list string :=
  if truthy v then [label ++ py_str rt v] else [].

(** The raw plan of an outcome of [_generate_meal_plan_internal]. *)
Definition raw_plan_of (r : result (pyval * string * pyval)) : result pyval :=
  match r with
  | Ok (meal_plan, _, _) => Ok meal_plan
  | Raise e => Raise e
  end.

(** The class of an exception is one of those [.get] on a value without
    the method and [for] over a value that is not iterable raise. *)
Definition shape_error (e : exn) : Prop :=
  exn_class_of e = AttributeError \/ exn_class_of e = TypeError.

(** A line that is neither of the two titles. *)
Definition plain (line : string) : Prop :=
  line <> "NUTRITION SUMMARY" /\ line <> "GROCERY LIST".

(** A process whose credential is set to the empty string, and one whose
    upstream refuses the credential. *)
Definition empty_key_world : world :=
  {| environ :=
       fun name => if (name =? "SPOONACULAR_API_KEY")%string then Some "" else None;
     network := network sample_world;
     utcnow := november_3 |}.

Definition unauthorized_world : world :=
  {| environ := environ sample_world;
     network :=
       fun r => Ok (mk_response 401 "Unauthorized" (req_url r)
                                (Ok (VDict [("status", VStr "failure")])));
     utcnow := november_3 |}.

(** Three meals as the upstream sends them, without a day. *)
Definition untagged_meals : list pyval :=
  [VDict [("id", VInt 1); ("title", VStr "Porridge")];
   VDict [("id", VInt 2); ("title", VStr "Curry")];
   VDict [("id", VInt 3); ("title", VStr "Stew")]].

(** * Properties *)

(** ** Runs of the monad *)

Lemma call_spoonacular_run (w : world) (params : pydict) :
  call_spoonacular "/mealplanner/generate" params w =
  if (SPOONACULAR_API_KEY w =? "")%string then (Raise no_credential, [])
  else
    (let? response := network w (upstream_request w params) in
     let? _ := raise_for_status response in
     json_body response,
     [EvGet (upstream_request w params)]).
Proof.
  unfold call_spoonacular, upstream_request.
  destruct (SPOONACULAR_API_KEY w =? "")%string; [reflexivity|].
  unfold bind, requests_get, lift, rbind.
  destruct (network w _) as [resp|e]; [|reflexivity].
  destruct (raise_for_status resp) as [[]|e]; [|reflexivity].
  destruct (json_body resp); reflexivity.
Qed.

Lemma internal_run (rt : PyRuntime) tf tc diet excl fs ev (w : world) :
  _generate_meal_plan_internal rt tf tc diet excl fs ev w =
  if (SPOONACULAR_API_KEY w =? "")%string then (Raise no_credential, [])
  else
    (let? meal_plan :=
       (let? response :=
          network w (upstream_request w (upstream_params tf tc diet excl)) in
        let? _ := raise_for_status response in
        json_body response) in
     let? doc_text :=
       format_meal_plan rt (utcnow w) meal_plan
                        (preferences_of fs tc diet excl ev) in
     Ok (meal_plan, doc_text, VNone),
     [EvGet (upstream_request w (upstream_params tf tc diet excl))]).
Proof.
  unfold _generate_meal_plan_internal, bind at 1.
  rewrite call_spoonacular_run.
  destruct (SPOONACULAR_API_KEY w =? "")%string; [reflexivity|].
  unfold bind, get_utcnow, lift, ret, rbind.
  destruct (network w _) as [resp|e]; [|reflexivity].
  destruct (raise_for_status resp) as [[]|e]; [|reflexivity].
  destruct (json_body resp) as [plan|e]; [|reflexivity].
  destruct (format_meal_plan _ _ _ _); reflexivity.
Qed.

(** ** C3: no credential, no request *)

(** C3.  Whatever the endpoint and the query parameters, when the
    environment has no [SPOONACULAR_API_KEY], [call_spoonacular] raises the
    configuration error ([RuntimeError] with the message of line 41) and
    causes no event: no HTTP request is issued. *)
Theorem C3_missing_credential_raises_before_any_request
        (endpoint : string) (params : pydict) (w : world) :
  environ w "SPOONACULAR_API_KEY" = None ->
  call_spoonacular endpoint params w
  = (Raise (Exn RuntimeError
                "SPOONACULAR_API_KEY environment variable is not set."),
     []).
Proof.
  intros Hnone. unfold call_spoonacular, SPOONACULAR_API_KEY.
  rewrite Hnone. reflexivity.
Qed.

Lemma C3_witness :
  call_spoonacular "/mealplanner/generate" [("timeFrame", VStr "day")] bare_world
  = (Raise (Exn RuntimeError
                "SPOONACULAR_API_KEY environment variable is not set."),
     []).
Proof.
  apply (C3_missing_credential_raises_before_any_request
           "/mealplanner/generate" [("timeFrame", VStr "day")] bare_world).
  reflexivity.
Defined.

(** ** C2: the check of [time_frame] comes first *)

(** C2.  For a [time_frame] other than "day" and "week",
    [generate_meal_plan] raises the [ValueError] of line 180 and causes no
    event: the request is never built, let alone sent. *)
Theorem C2_invalid_time_frame_raises_before_any_request
        (rt : PyRuntime) (time_frame : string) (target_calories : option Z)
        (diet exclude : option string) (family_size : option Z)
        (event_date : option string) (w : world) :
  time_frame <> "day" -> time_frame <> "week" ->
  generate_meal_plan rt time_frame target_calories diet exclude family_size
                     event_date w
  = (Raise (Exn ValueError "time_frame must be either 'day' or 'week'"), []).
Proof.
  intros Hday Hweek. unfold generate_meal_plan.
  apply String.eqb_neq in Hday, Hweek. rewrite Hday, Hweek. reflexivity.
Qed.

Lemma C2_witness :
  generate_meal_plan sample_runtime "month" (Some 2000) None None None None
                     sample_world
  = (Raise (Exn ValueError "time_frame must be either 'day' or 'week'"), []).
Proof.
  apply (C2_invalid_time_frame_raises_before_any_request
           sample_runtime "month" (Some 2000) None None None None sample_world);
    discriminate.
Defined.

(** ** C1: the upstream query *)

Lemma internal_requests (rt : PyRuntime) tf tc diet excl fs ev (w : world) :
  requests_of (events (_generate_meal_plan_internal rt tf tc diet excl fs ev) w)
  = if (SPOONACULAR_API_KEY w =? "")%string then []
    else [upstream_request w (upstream_params tf tc diet excl)].
Proof.
  unfold events. rewrite internal_run.
  destruct (SPOONACULAR_API_KEY w =? "")%string; reflexivity.
Qed.

(** The three shapes of an optional argument the tests [if x:] tell apart. *)
Ltac split_optional_int o :=
  let z := fresh "z" in
  destruct o as [z|]; cbn [of_opt_int truthy]; [destruct (z =? 0)|].

Ltac split_optional_str o :=
  let a := fresh "a" in
  let s := fresh "s" in
  destruct o as [[|a s]|].

Ltac solve_query_fact :=
  first
    [ reflexivity
    | discriminate
    | intros _; reflexivity
    | let v := fresh "v" in
      let Hv := fresh "Hv" in
      intros v Hv;
      first [discriminate Hv
            | injection Hv as <-; eexists; repeat split; discriminate]
    | let k := fresh "k" in
      let Hk := fresh "Hk" in
      intros k Hk; tauto ].

(** C1.  Every request [_generate_meal_plan_internal] issues carries a
    query in which [timeFrame] is the caller's time frame; [targetCalories],
    [diet] and [exclude] are absent when the caller left them unset, and
    when one of them is present it is the caller's value, a non-empty string
    for [diet] and [exclude]; there is no [familySize] entry, the only keys
    are those four and the credential, and the request is the same whatever
    family size was passed. *)
Theorem C1_upstream_query_has_time_frame_optional_fields_no_family_size
        (rt : PyRuntime) (time_frame : string) (target_calories : option Z)
        (diet exclude : option string) (family_size : option Z)
        (event_date : option string) (w : world) (req : request) :
  In req (requests_of
            (events (_generate_meal_plan_internal
                       rt time_frame target_calories diet exclude family_size
                       event_date) w)) ->
  dict_get "timeFrame" (req_params req) = Some (VStr time_frame)
  /\ (target_calories = None -> dict_get "targetCalories" (req_params req) = None)
  /\ (diet = None -> dict_get "diet" (req_params req) = None)
  /\ (exclude = None -> dict_get "exclude" (req_params req) = None)
  /\ (forall v, dict_get "targetCalories" (req_params req) = Some v ->
                exists z, target_calories = Some z /\ v = VInt z)
  /\ (forall v, dict_get "diet" (req_params req) = Some v ->
                exists s, diet = Some s /\ v = VStr s /\ s <> "")
  /\ (forall v, dict_get "exclude" (req_params req) = Some v ->
                exists s, exclude = Some s /\ v = VStr s /\ s <> "")
  /\ dict_get "familySize" (req_params req) = None
  /\ (forall k, In k (dict_keys (req_params req)) ->
                In k ["timeFrame"; "targetCalories"; "diet"; "exclude"; "apiKey"])
  /\ (forall family_size' : option Z,
         requests_of
           (events (_generate_meal_plan_internal
                      rt time_frame target_calories diet exclude family_size'
                      event_date) w) = [req]).
Proof.
  rewrite internal_requests.
  destruct (SPOONACULAR_API_KEY w =? "")%string eqn:Hkey; [intros []|].
  intros [<-|[]].
  assert (Hsame : forall family_size' : option Z,
             requests_of
               (events (_generate_meal_plan_internal
                          rt time_frame target_calories diet exclude
                          family_size' event_date) w)
             = [upstream_request w
                  (upstream_params time_frame target_calories diet exclude)]).
  { intros fs'. rewrite internal_requests, Hkey. reflexivity. }
  repeat match goal with |- _ /\ _ => split end; try exact Hsame;
    unfold upstream_request, upstream_params; cbn [req_params];
    split_optional_int target_calories;
    split_optional_str diet;
    split_optional_str exclude;
    cbn; solve_query_fact.
Qed.

Lemma C1_witness :
  exists req,
    requests_of
      (events (_generate_meal_plan_internal
                 sample_runtime "day" (Some 2000) (Some "vegetarian") None
                 (Some 4) None) sample_world) = [req]
    /\ req_params req
       = [("timeFrame", VStr "day"); ("targetCalories", VInt 2000);
          ("diet", VStr "vegetarian"); ("apiKey", VStr "k3y")]
    /\ dict_get "timeFrame" (req_params req) = Some (VStr "day")
    /\ dict_get "familySize" (req_params req) = None.
Proof.
  eexists. split; [vm_compute; reflexivity|]. split; [reflexivity|].
  pose proof (C1_upstream_query_has_time_frame_optional_fields_no_family_size
                sample_runtime "day" (Some 2000) (Some "vegetarian") None
                (Some 4) None sample_world _ (or_introl eq_refl)) as H.
  split; [exact (proj1 H)|].
  exact (proj1 (proj2 (proj2 (proj2 (proj2 (proj2 (proj2 (proj2 H)))))))).
Defined.

(** ** C10: zero counts as unset *)

(** C10.  A target of 0 calories and a family of 0 are handled as if the
    argument were absent: the query built for [target_calories = 0] is the
    query built without it and has no [targetCalories] entry; the line of a
    preference that is 0 is not produced; the report is the one obtained
    without the preference; and the whole run of
    [_generate_meal_plan_internal] (request, outcome) is the same. *)
Theorem C10_zero_calories_or_family_size_is_treated_as_unset
        (rt : PyRuntime) (time_frame : string) (target_calories : option Z)
        (diet exclude : option string) (family_size : option Z)
        (event_date : option string) (now : datetime) (plan : pyval)
        (w : world) :
  upstream_params time_frame (Some 0) diet exclude
  = upstream_params time_frame None diet exclude
  /\ dict_get "targetCalories" (upstream_params time_frame (Some 0) diet exclude)
     = None
  /\ pref_line rt "Family Size: " "familySize"
               (preferences_of (Some 0) target_calories diet exclude event_date)
     = Ok []
  /\ pref_line rt "Daily Calorie Target: " "targetCalories"
               (preferences_of family_size (Some 0) diet exclude event_date)
     = Ok []
  /\ format_meal_plan rt now plan
       (preferences_of (Some 0) target_calories diet exclude event_date)
     = format_meal_plan rt now plan
         (preferences_of None target_calories diet exclude event_date)
  /\ format_meal_plan rt now plan
       (preferences_of family_size (Some 0) diet exclude event_date)
     = format_meal_plan rt now plan
         (preferences_of family_size None diet exclude event_date)
  /\ _generate_meal_plan_internal rt time_frame (Some 0) diet exclude
                                  family_size event_date w
     = _generate_meal_plan_internal rt time_frame None diet exclude
                                    family_size event_date w
  /\ _generate_meal_plan_internal rt time_frame target_calories diet exclude
                                  (Some 0) event_date w
     = _generate_meal_plan_internal rt time_frame target_calories diet exclude
                                    None event_date w.
Proof.
  repeat match goal with |- _ /\ _ => split end; try reflexivity.
  unfold upstream_params.
  split_optional_str diet; split_optional_str exclude; reflexivity.
Qed.

(** ** C8 and C9: the envelope *)

(** What the tool returns when it returns, and what the CLI prints when it
    prints: the serialisation of an envelope whose document is [None] and
    whose preferences are those of the call. *)
Lemma returned_envelope (rt : PyRuntime) tf tc diet excl fs ev (w : world)
      (s : string) :
  outcome (generate_meal_plan rt tf tc diet excl fs ev) w = Ok s
  \/ In (EvPrint s)
        (events (run_cli rt (mk_cli_args tf tc diet excl fs ev)) w) ->
  exists meal_plan doc_text,
    s = json_dumps rt
          (VDict (envelope meal_plan doc_text VNone
                           (preferences_of fs tc diet excl ev))).
Proof.
  intros [Htool|Hcli].
  - revert Htool. unfold outcome, generate_meal_plan.
    destruct (negb _); [discriminate|].
    unfold bind at 1, try_except. rewrite internal_run.
    destruct (SPOONACULAR_API_KEY w =? "")%string; [discriminate|].
    destruct (rbind _ _) as [[[plan text] doc]|e] eqn:Hrun;
      [|discriminate].
    cbn. intros [= <-]. exists plan, text. reflexivity.
  - revert Hcli. unfold events, run_cli. cbn [arg_time_frame
      arg_target_calories arg_diet arg_exclude arg_family_size arg_event_date].
    unfold bind at 1. rewrite internal_run.
    destruct (SPOONACULAR_API_KEY w =? "")%string; [intros []|].
    destruct (rbind _ _) as [[[plan text] doc]|e] eqn:Hrun.
    + assert (doc = VNone) as ->.
      { revert Hrun. unfold rbind.
        repeat match goal with
               | |- context [match ?r with Ok _ => _ | Raise _ => _ end] =>
                   destruct r; try discriminate
               end.
        intros [= _ _ <-]. reflexivity. }
      cbn. intros [Hget|[[= <-]|[]]]; [discriminate|].
      exists plan, text. reflexivity.
    + cbn. intros [Hget|[]]. discriminate.
Qed.

(** C8.  Whenever the tool returns a reply, and whenever the CLI prints
    one, the reply is the serialisation of a dictionary whose [document]
    entry is [None]. *)
Theorem C8_document_field_of_the_envelope_is_null
        (rt : PyRuntime) (time_frame : string) (target_calories : option Z)
        (diet exclude : option string) (family_size : option Z)
        (event_date : option string) (w : world) (s : string) :
  outcome (generate_meal_plan rt time_frame target_calories diet exclude
                              family_size event_date) w = Ok s
  \/ In (EvPrint s)
        (events (run_cli rt (mk_cli_args time_frame target_calories diet
                                         exclude family_size event_date)) w) ->
  exists env : pydict,
    s = json_dumps rt (VDict env) /\ dict_get "document" env = Some VNone.
Proof.
  intros Hrun.
  destruct (returned_envelope rt _ _ _ _ _ _ w s Hrun) as (plan & text & ->).
  eexists. split; reflexivity.
Qed.

Lemma C8_witness :
  exists (s : string) (env : pydict),
    outcome (generate_meal_plan sample_runtime "day" (Some 2000)
                                (Some "vegetarian") None (Some 4) None)
            sample_world = Ok s
    /\ s = json_dumps sample_runtime (VDict env)
    /\ dict_get "document" env = Some VNone.
Proof.
  destruct (outcome (generate_meal_plan sample_runtime "day" (Some 2000)
                                        (Some "vegetarian") None (Some 4) None)
                    sample_world) as [s|e] eqn:Hrun;
    [|vm_compute in Hrun; discriminate Hrun].
  destruct (C8_document_field_of_the_envelope_is_null
              sample_runtime "day" (Some 2000) (Some "vegetarian") None
              (Some 4) None sample_world s (or_introl Hrun))
    as (env & Hs & Hdoc).
  exists s, env. repeat split; assumption.
Defined.

(** C9.  In every reply the tool returns or the CLI prints, the
    [preferences] entry is a dictionary with exactly the keys [familySize],
    [targetCalories], [diet], [exclude] and [eventDate], in this order, each
    bound to the caller's value ([None] when unset); it has no entry for the
    time frame. *)
Theorem C9_echoed_preferences_have_five_fields_and_no_time_frame
        (rt : PyRuntime) (time_frame : string) (target_calories : option Z)
        (diet exclude : option string) (family_size : option Z)
        (event_date : option string) (w : world) (s : string) :
  outcome (generate_meal_plan rt time_frame target_calories diet exclude
                              family_size event_date) w = Ok s
  \/ In (EvPrint s)
        (events (run_cli rt (mk_cli_args time_frame target_calories diet
                                         exclude family_size event_date)) w) ->
  exists env prefs : pydict,
    s = json_dumps rt (VDict env)
    /\ dict_get "preferences" env = Some (VDict prefs)
    /\ dict_keys prefs
       = ["familySize"; "targetCalories"; "diet"; "exclude"; "eventDate"]
    /\ dict_get "familySize" prefs = Some (of_opt_int family_size)
    /\ dict_get "targetCalories" prefs = Some (of_opt_int target_calories)
    /\ dict_get "diet" prefs = Some (of_opt_str diet)
    /\ dict_get "exclude" prefs = Some (of_opt_str exclude)
    /\ dict_get "eventDate" prefs = Some (of_opt_str event_date)
    /\ dict_get "timeFrame" prefs = None
    /\ dict_get "time_frame" prefs = None.
Proof.
  intros Hrun.
  destruct (returned_envelope rt _ _ _ _ _ _ w s Hrun) as (plan & text & ->).
  do 2 eexists. repeat split; reflexivity.
Qed.

Lemma C9_witness :
  exists (s : string) (env prefs : pydict),
    events (run_cli sample_runtime
                    (mk_cli_args "week" None (Some "vegan") None (Some 4)
                                 (Some "2026-12-25")))
           sample_world
    = [EvGet (upstream_request sample_world
                               [("timeFrame", VStr "week");
                                ("diet", VStr "vegan")]);
       EvPrint s]
    /\ s = json_dumps sample_runtime (VDict env)
    /\ dict_get "preferences" env = Some (VDict prefs)
    /\ prefs = [("familySize", VInt 4); ("targetCalories", VNone);
                ("diet", VStr "vegan"); ("exclude", VNone);
                ("eventDate", VStr "2026-12-25")].
Proof.
  eexists.
  assert (Hev : events (run_cli sample_runtime
                          (mk_cli_args "week" None (Some "vegan") None (Some 4)
                                       (Some "2026-12-25")))
                       sample_world
                = [EvGet (upstream_request sample_world
                                           [("timeFrame", VStr "week");
                                            ("diet", VStr "vegan")]);
                   EvPrint ?[s]]) by (vm_compute; reflexivity).
  match type of Hev with
  | ?run = [_; EvPrint ?s0] =>
      assert (Hin : In (EvPrint s0) run)
        by (rewrite Hev; right; left; reflexivity)
  end.
  destruct (C9_echoed_preferences_have_five_fields_and_no_time_frame
              sample_runtime "week" None (Some "vegan") None (Some 4)
              (Some "2026-12-25") sample_world _ (or_intror Hin))
    as (env & prefs & Hs & Hp & Hk & Hfs & Htc & Hd & He & Hev' & _).
  exists env, prefs.
  split; [exact Hev|]. split; [exact Hs|]. split; [exact Hp|].
  destruct prefs as [|[k1 v1] [|[k2 v2] [|[k3 v3] [|[k4 v4] [|[k5 v5] [|]]]]]];
    try discriminate Hk.
  injection Hk as -> -> -> -> ->.
  cbn in Hfs, Htc, Hd, He, Hev'.
  injection Hfs as ->. injection Htc as ->. injection Hd as ->.
  injection He as ->. injection Hev' as ->. reflexivity.
Defined.

(** ** The order of labels and [sorted] *)

Module LabelOrder.

Lemma ascii_compare_lt (a b : ascii) :
  Ascii.compare a b = Lt <-> (ord a < ord b)%N.
Proof. unfold Ascii.compare, ord. apply N.compare_lt_iff. Qed.

Lemma ascii_compare_eq (a b : ascii) : Ascii.compare a b = Eq <-> a = b.
Proof.
  split; [apply Ascii.compare_eq_iff|].
  intros ->. unfold Ascii.compare. apply N.compare_refl.
Qed.

Lemma compare_lt_trans (a b c : string) :
  String.compare a b = Lt -> String.compare b c = Lt -> String.compare a c = Lt.
Proof.
  revert b c. induction a as [|x a IH]; intros [|y b] [|z c]; cbn;
    try discriminate; try reflexivity.
  destruct (Ascii.compare x y) eqn:Hxy; try discriminate;
    destruct (Ascii.compare y z) eqn:Hyz; try discriminate; intros Hab Hbc.
  - apply Ascii.compare_eq_iff in Hxy. apply Ascii.compare_eq_iff in Hyz.
    subst. rewrite (proj2 (ascii_compare_eq z z) eq_refl). eauto.
  - apply Ascii.compare_eq_iff in Hxy. subst. rewrite Hyz. reflexivity.
  - apply Ascii.compare_eq_iff in Hyz. subst. rewrite Hxy. reflexivity.
  - apply (proj1 (ascii_compare_lt _ _)) in Hxy.
    apply (proj1 (ascii_compare_lt _ _)) in Hyz.
    rewrite (proj2 (ascii_compare_lt x z)) by lia. reflexivity.
Qed.

Lemma label_lt_trans (a b c : string) :
  label_lt a b -> label_lt b c -> label_lt a c.
Proof.
  unfold label_lt, String.ltb. intros Hab Hbc.
  destruct (String.compare a b) eqn:H1; try discriminate.
  destruct (String.compare b c) eqn:H2; try discriminate.
  rewrite (compare_lt_trans a b c H1 H2). reflexivity.
Qed.

Lemma label_lt_irrefl (a : string) : ~ label_lt a a.
Proof.
  unfold label_lt, String.ltb. intros H.
  destruct (String.compare a a) eqn:Hc; try discriminate.
  pose proof (String.compare_antisym a a) as Hanti.
  rewrite Hc in Hanti. discriminate.
Qed.

(** The two outcomes of the test in [insert_sorted] on distinct labels. *)
Lemma leb_true_lt (x y : string) : String.leb x y = true -> x <> y -> label_lt x y.
Proof.
  unfold String.leb, label_lt, String.ltb. intros Hle Hne.
  destruct (String.compare x y) eqn:Hc; try discriminate; [|reflexivity].
  apply String.compare_eq_iff in Hc. contradiction.
Qed.

Lemma leb_false_lt (x y : string) : String.leb x y = false -> label_lt y x.
Proof.
  unfold String.leb, label_lt, String.ltb. rewrite (String.compare_antisym y x).
  destruct (String.compare x y); try discriminate. reflexivity.
Qed.

Lemma insert_sorted_perm (x : string) (l : list string) :
  Permutation (x :: l) (insert_sorted x l).
Proof.
  induction l as [|y l IH]; cbn; [reflexivity|].
  destruct (String.leb x y); [reflexivity|].
  rewrite perm_swap. constructor. exact IH.
Qed.

Lemma sorted_perm (l : list string) : Permutation l (sorted l).
Proof.
  induction l as [|x l IH]; cbn; [constructor|].
  rewrite <- insert_sorted_perm. constructor. exact IH.
Qed.

Lemma insert_sorted_strict (x : string) (l : list string) :
  StronglySorted label_lt l -> ~ In x l ->
  StronglySorted label_lt (insert_sorted x l).
Proof.
  induction 1 as [|y l Hsorted IH Hall]; cbn; intros Hnotin.
  - repeat constructor.
  - destruct (String.leb x y) eqn:Hle.
    + assert (Hxy : label_lt x y) by (apply leb_true_lt; intuition).
      constructor; [constructor; assumption|].
      constructor; [exact Hxy|].
      eapply Forall_impl; [|exact Hall].
      intros z Hyz. exact (label_lt_trans _ _ _ Hxy Hyz).
    + constructor; [apply IH; intuition|].
      apply (Permutation_Forall (insert_sorted_perm x l)).
      constructor; [apply leb_false_lt; exact Hle|exact Hall].
Qed.

Lemma sorted_strict (l : list string) :
  NoDup l -> StronglySorted label_lt (sorted l).
Proof.
  induction 1 as [|x l Hnotin Hnodup IH]; cbn; [constructor|].
  apply insert_sorted_strict; [exact IH|].
  intros Hin. apply Hnotin.
  apply (Permutation_in _ (Permutation_sym (sorted_perm l)) Hin).
Qed.

Lemma sorted_In (l : list string) (x : string) : In x (sorted l) <-> In x l.
Proof.
  split; apply Permutation_in;
    [apply Permutation_sym|]; apply sorted_perm.
Qed.

End LabelOrder.

(** ** Grouping by day *)

Lemma concat_map_r_ext {A : Type} (f g : A -> result (list string)) (l : list A) :
  (forall x, In x l -> f x = g x) -> concat_map_r f l = concat_map_r g l.
Proof.
  induction l as [|x l IH]; intros Hext; cbn; [reflexivity|].
  rewrite (Hext x (or_introl eq_refl)).
  rewrite IH by (intros y Hy; apply Hext; right; exact Hy).
  reflexivity.
Qed.

Lemma concat_map_r_ok {A : Type} (f : A -> result (list string)) (l : list A) :
  (forall x, In x l -> exists ls, f x = Ok ls) ->
  exists ls, concat_map_r f l = Ok ls.
Proof.
  induction l as [|x l IH]; intros Hok; cbn; [eexists; reflexivity|].
  destruct (Hok x (or_introl eq_refl)) as [ls ->].
  destruct IH as [rest ->]; [intros y Hy; apply Hok; right; exact Hy|].
  eexists. reflexivity.
Qed.

Section Grouping.

Context (rt : PyRuntime).

Lemma day_of_dict (m : pyval) :
  is_dict m = true -> exists d, day_of rt m = Ok d.
Proof.
  destruct m; try discriminate. intros _. eexists. reflexivity.
Qed.

Lemma group_of_setdefault (d d' : string) (m : pyval)
      (g : list (string * list pyval)) :
  group_of d (setdefault_append d' m g)
  = if (d' =? d)%string then group_of d g +++ [m] else group_of d g.
Proof.
  induction g as [|[k ms] g IH]; cbn.
  - destruct (d' =? d)%string; reflexivity.
  - destruct (String.eqb_spec k d') as [->|Hk]; cbn.
    + destruct (d' =? d)%string; reflexivity.
    + rewrite IH.
      destruct (String.eqb_spec k d) as [->|Hkd]; [|reflexivity].
      apply String.eqb_neq in Hk. rewrite String.eqb_sym, Hk. reflexivity.
Qed.

Lemma keys_setdefault (d d' : string) (m : pyval)
      (g : list (string * list pyval)) :
  In d (map fst (setdefault_append d' m g)) <-> d = d' \/ In d (map fst g).
Proof.
  induction g as [|[k ms] g IH]; cbn.
  - intuition.
  - destruct (String.eqb_spec k d') as [->|Hk]; cbn; [intuition|].
    rewrite IH. intuition.
Qed.

Lemma nodup_setdefault (d' : string) (m : pyval)
      (g : list (string * list pyval)) :
  NoDup (map fst g) -> NoDup (map fst (setdefault_append d' m g)).
Proof.
  induction g as [|[k ms] g IH]; cbn; intros Hnodup.
  - repeat constructor. intros [].
  - inversion Hnodup as [|? ? Hnotin Hrest]; subst.
    destruct (String.eqb_spec k d') as [->|Hk]; cbn; [exact Hnodup|].
    constructor; [|apply IH; exact Hrest].
    rewrite keys_setdefault. intuition.
Qed.

(** The loop of lines 80-82 over meals that are objects: it never raises,
    and what it adds under a day are the meals tagged with that day, in
    the order of the list. *)
Lemma group_meals_spec (meals : list pyval) :
  forallb is_dict meals = true ->
  forall g, exists g',
    group_meals rt meals g = Ok g'
    /\ (forall d, group_of d g' = group_of d g +++ filter (tagged rt d) meals)
    /\ (forall d, In d (map fst g') <->
                  In d (map fst g) \/ exists m, In m meals /\ day_of rt m = Ok d)
    /\ (NoDup (map fst g) -> NoDup (map fst g')).
Proof.
  induction meals as [|m meals IH]; cbn [forallb]; intros Hdicts g.
  - exists g. cbn. split; [reflexivity|]. split; [intros d; symmetry; apply app_nil_r|].
    split; [|trivial]. intros d. split; [auto|]. intros [H|(m & [] & _)]. exact H.
  - apply andb_prop in Hdicts as [Hm Hrest].
    destruct (day_of_dict m Hm) as [dm Hdm].
    destruct (IH Hrest (setdefault_append dm m g)) as (g' & Hrun & Hgroup & Hkeys & Hnodup).
    exists g'. cbn [group_meals]. rewrite Hdm. cbn [rbind].
    split; [exact Hrun|]. split; [|split].
    + intros d. rewrite Hgroup, group_of_setdefault. cbn [filter].
      unfold tagged at 2. rewrite Hdm.
      destruct (dm =? d)%string; [rewrite <- app_assoc|]; reflexivity.
    + intros d. rewrite Hkeys, keys_setdefault. split.
      * intros [[->|H]|(m' & Hin & Hday)]; eauto using in_eq, in_cons.
      * intros [H|(m' & [<-|Hin] & Hday)]; eauto.
        left. left. congruence.
    + intros H. apply Hnodup, nodup_setdefault, H.
Qed.

Lemma grouped_item_group_of (d : string) (g : list (string * list pyval)) :
  In d (map fst g) -> grouped_item rt d g = Ok (group_of d g).
Proof.
  induction g as [|[k ms] g IH]; cbn; [intros []|].
  destruct (String.eqb_spec k d) as [->|Hk]; [reflexivity|].
  intros [Heq|Hin]; [contradiction|]. apply IH, Hin.
Qed.

End Grouping.

(** C5.  For meals that are objects, the meals section is made of one
    block per distinct day label, the labels in strictly increasing order of
    their text ([str] of the day value, compared as strings), and the block
    of a label goes over the meals tagged with it in the order of the
    original list. *)
Theorem C5_day_groups_in_increasing_label_order_meals_in_list_order
        (rt : PyRuntime) (meals : list pyval) :
  forallb is_dict meals = true ->
  exists days : list string,
    StronglySorted label_lt days
    /\ (forall d, In d days <-> exists m, In m meals /\ day_of rt m = Ok d)
    /\ meals_block rt meals
       = concat_map_r
           (fun d => day_block rt d (filter (tagged rt d) meals)) days.
Proof.
  intros Hdicts.
  destruct (group_meals_spec rt meals Hdicts [])
    as (g & Hrun & Hgroup & Hkeys & Hnodup).
  exists (sorted (map fst g)). split; [|split].
  - apply LabelOrder.sorted_strict, Hnodup. constructor.
  - intros d. rewrite LabelOrder.sorted_In, Hkeys. cbn. intuition.
  - unfold meals_block. rewrite Hrun. cbn [rbind].
    apply concat_map_r_ext. intros d Hd.
    apply (proj1 (LabelOrder.sorted_In _ _)) in Hd.
    rewrite (grouped_item_group_of rt d g Hd). cbn [rbind].
    rewrite Hgroup. reflexivity.
Qed.

(** ** C4: the formatter on well-shaped plans *)

Section Totality.

Context (rt : PyRuntime).

Lemma optional_line_dict (d : pydict) (key : string) (render : string -> string) :
  exists ls, optional_line rt (VDict d) key render = Ok ls.
Proof.
  unfold optional_line, py_get, py_getitem. cbn [rbind].
  destruct (dict_get key d) as [x|]; cbn [truthy];
    [destruct (truthy x)|]; eexists; reflexivity.
Qed.

Lemma preference_lines_ok (preferences : pydict) :
  exists ls, preference_lines rt preferences = Ok ls.
Proof.
  unfold preference_lines, pref_line.
  destruct (optional_line_dict preferences "familySize"
              (fun x => "Family Size: " ++ x)) as [l1 ->].
  destruct (optional_line_dict preferences "diet"
              (fun x => "Dietary Preference: " ++ x)) as [l2 ->].
  destruct (optional_line_dict preferences "exclude"
              (fun x => "Exclusions: " ++ x)) as [l3 ->].
  destruct (optional_line_dict preferences "targetCalories"
              (fun x => "Daily Calorie Target: " ++ x)) as [l4 ->].
  eexists. reflexivity.
Qed.

Lemma meal_block_dict (m : pyval) :
  is_dict m = true -> exists ls, meal_block rt m = Ok ls.
Proof.
  destruct m as [| | | | | |d]; try discriminate. intros _.
  unfold meal_block. cbn [py_get rbind].
  destruct (optional_line_dict d "readyInMinutes"
              (fun x => "   Ready in: " ++ x ++ " minutes")) as [l1 ->].
  destruct (optional_line_dict d "servings"
              (fun x => "   Servings: " ++ x)) as [l2 ->].
  destruct (optional_line_dict d "id"
              (fun x => "   Recipe URL: https://spoonacular.com/recipes/-" ++ x))
    as [l3 ->].
  eexists. reflexivity.
Qed.

Lemma day_block_dicts (day : string) (meals : list pyval) :
  forallb is_dict meals = true -> exists ls, day_block rt day meals = Ok ls.
Proof.
  intros Hdicts. unfold day_block.
  destruct (concat_map_r_ok (meal_block rt) meals) as [ls ->].
  - intros m Hm. apply meal_block_dict.
    exact (proj1 (forallb_forall _ _) Hdicts m Hm).
  - eexists. reflexivity.
Qed.

Lemma meals_block_dicts (meals : list pyval) :
  forallb is_dict meals = true -> exists ls, meals_block rt meals = Ok ls.
Proof.
  intros Hdicts.
  destruct (group_meals_spec rt meals Hdicts []) as (g & Hrun & Hgroup & _).
  unfold meals_block. rewrite Hrun. cbn [rbind].
  apply concat_map_r_ok. intros d Hd.
  apply (proj1 (LabelOrder.sorted_In _ _)) in Hd.
  rewrite (grouped_item_group_of rt d g Hd). cbn [rbind].
  apply day_block_dicts. rewrite Hgroup. cbn [group_of app].
  apply forallb_forall. intros m Hm. apply filter_In in Hm as [Hm _].
  exact (proj1 (forallb_forall _ _) Hdicts m Hm).
Qed.

Lemma item_line_dict (item : pyval) :
  is_dict item = true -> exists ls, item_line rt item = Ok ls.
Proof.
  destruct item as [| | | | | |d]; try discriminate. intros _.
  unfold item_line. cbn [py_get rbind].
  destruct (truthy _); eexists; reflexivity.
Qed.

Lemma items_block_dicts (items : list pyval) :
  forallb is_dict items = true -> exists ls, items_block rt (VList items) = Ok ls.
Proof.
  intros Hdicts. unfold items_block. cbn [py_iter rbind].
  destruct (concat_map_r_ok (item_line rt) items) as [ls ->].
  - intros m Hm. apply item_line_dict.
    exact (proj1 (forallb_forall _ _) Hdicts m Hm).
  - eexists. reflexivity.
Qed.

Lemma nutrients_block_dict (nutrients : pyval) :
  is_dict nutrients = true -> exists ls, nutrients_block rt nutrients = Ok ls.
Proof.
  destruct nutrients; try discriminate. intros _. eexists. reflexivity.
Qed.

(** The lines of a well-shaped plan are produced without an exception. *)
Lemma plan_lines_ok (meal_plan : pyval) :
  well_shaped meal_plan = true -> exists ls, plan_lines rt meal_plan = Ok ls.
Proof.
  destruct meal_plan as [| | | | | |d]; try discriminate.
  unfold well_shaped, plan_lines. cbn [py_get rbind].
  intros H. apply andb_prop in H as [H Hitems].
  apply andb_prop in H as [Hmeals Hnutrients].
  assert (Hm : exists ls,
             match match dict_get "meals" d with Some x => x | None => VNone end
             with VList ms => meals_block rt ms | _ => Ok [] end = Ok ls).
  { destruct (dict_get "meals" d) as [[| | | | |ms|]|];
      try (eexists; reflexivity).
    apply meals_block_dicts, Hmeals. }
  destruct Hm as [l1 ->]. cbn [rbind].
  assert (Hn : exists ls,
             (if truthy match dict_get "nutrients" d with
                        | Some x => x | None => VNone end
              then nutrients_block rt
                     match dict_get "nutrients" d with
                     | Some x => x | None => VNone end
              else Ok []) = Ok ls).
  { destruct (dict_get "nutrients" d) as [n|]; [|eexists; reflexivity].
    destruct (truthy n); [|eexists; reflexivity].
    apply nutrients_block_dict, Hnutrients. }
  destruct Hn as [l2 ->]. cbn [rbind].
  assert (Hi : exists ls,
             (if truthy match dict_get "items" d with
                        | Some x => x | None => VNone end
              then items_block rt
                     match dict_get "items" d with
                     | Some x => x | None => VNone end
              else Ok []) = Ok ls).
  { destruct (dict_get "items" d) as [it|]; [|eexists; reflexivity].
    destruct (truthy it) eqn:Ht; [|eexists; reflexivity].
    destruct it; try discriminate Hitems.
    apply items_block_dicts, Hitems. }
  destruct Hi as [l3 ->]. cbn [rbind].
  eexists. reflexivity.
Qed.

End Totality.

(** C4.  On every well-shaped plan (an object whose [meals], when a list,
    holds objects, whose [nutrients], when truthy, is an object, and whose
    [items], when truthy, is a list of objects) and for every dictionary of
    preferences, [format_meal_plan] returns a text and raises nothing:
    absent entries and absent fields only omit lines or put the
    placeholders. *)
Theorem C4_formatter_returns_text_on_well_shaped_plans
        (rt : PyRuntime) (now : datetime) (meal_plan : pyval)
        (preferences : pydict) :
  well_shaped meal_plan = true ->
  exists text : string, format_meal_plan rt now meal_plan preferences = Ok text.
Proof.
  intros Hshape. unfold format_meal_plan.
  destruct (preference_lines_ok rt preferences) as [prefs ->].
  destruct (plan_lines_ok rt meal_plan Hshape) as [body ->].
  eexists. reflexivity.
Qed.

(** ** What [strip] leaves of the report *)

Module Strip.

Lemma append_assoc (a b c : string) : (a ++ b) ++ c = a ++ b ++ c.
Proof. induction a as [|x a IH]; cbn; [|rewrite IH]; reflexivity. Qed.

Lemma list_ascii_app (a b : string) :
  list_ascii_of_string (a ++ b)
  = list_ascii_of_string a +++ list_ascii_of_string b.
Proof. induction a as [|x a IH]; cbn; [|rewrite IH]; reflexivity. Qed.

Lemma string_of_list_app (l1 l2 : list ascii) :
  string_of_list_ascii (l1 +++ l2)
  = string_of_list_ascii l1 ++ string_of_list_ascii l2.
Proof. induction l1 as [|x l1 IH]; cbn; [|rewrite IH]; reflexivity. Qed.

(** The byte of ["="] is not a space and is part of no encoded space. *)
Lemma space2_snd (b : ascii) : space2 b "=" = false.
Proof. unfold space2. cbn. apply andb_false_r. Qed.

Lemma space3_fst (b c : ascii) : space3 "=" b c = false.
Proof. reflexivity. Qed.

Lemma space3_snd (a c : ascii) : space3 a "=" c = false.
Proof. unfold space3. cbn. rewrite !andb_false_r. reflexivity. Qed.

Lemma space3_trd (a b : ascii) : space3 a b "=" = false.
Proof. unfold space3. cbn. rewrite !andb_false_r. reflexivity. Qed.

(** Scanning from the end stops at the last ["="] at the latest. *)
Lemma rstrip_rev_keeps (n : nat) (l r : list ascii) :
  (List.length l <= n)%nat ->
  exists l', rstrip_rev (l +++ "="%char :: r) = l' +++ "="%char :: r.
Proof.
  revert l. induction n as [|n IH]; intros l Hlen.
  - destruct l; [|cbn in Hlen; lia]. exists []. cbn [app rstrip_rev].
    change (space1 "=") with false. cbn iota.
    destruct r as [|b [|a r]]; try reflexivity;
      rewrite space2_snd; try reflexivity.
    rewrite space3_trd. reflexivity.
  - destruct l as [|c l1].
    + apply (IH []). cbn. lia.
    + cbn [app rstrip_rev]. cbn in Hlen.
      destruct (space1 c); [apply IH; lia|].
      destruct l1 as [|b l2]; cbn [app].
      * change (space2 "=" c) with false. cbn iota.
        exists [c]. destruct r as [|a r]; [reflexivity|].
        rewrite space3_snd. reflexivity.
      * cbn in Hlen. destruct (space2 b c); [apply IH; lia|].
        destruct l2 as [|a l3]; cbn [app].
        -- rewrite space3_fst. exists [c; b]. reflexivity.
        -- cbn in Hlen. destruct (space3 a b c); [apply IH; lia|].
           exists (c :: b :: a :: l3). reflexivity.
Qed.

Lemma rstrip_keeps (p q : string) :
  exists q', rstrip (p ++ String "=" q) = p ++ String "=" q'.
Proof.
  unfold rstrip. rewrite list_ascii_app. cbn [list_ascii_of_string].
  rewrite rev_app_distr. cbn [rev]. rewrite <- app_assoc. cbn [app].
  destruct (rstrip_rev_keeps _ (rev (list_ascii_of_string q))
              (rev (list_ascii_of_string p)) (le_n _)) as [l' ->].
  exists (string_of_list_ascii (rev l')).
  rewrite rev_app_distr. cbn [rev]. rewrite rev_involutive, <- app_assoc.
  cbn [app]. rewrite string_of_list_app. cbn [string_of_list_ascii].
  rewrite string_of_list_ascii_of_string. reflexivity.
Qed.

Lemma lstrip_title (s : string) :
  lstrip ("WEEKLY MEAL PLAN" ++ s) = "WEEKLY MEAL PLAN" ++ s.
Proof. reflexivity. Qed.

Lemma join_cons (x : string) (l : list string) :
  l <> [] -> join nl (x :: l) = x ++ nl ++ join nl l.
Proof. destruct l; [contradiction|reflexivity]. Qed.

(** A text joined from lines among which one starts like the rule has a
    ["="] in it. *)
Lemma join_has_rule (a b : list string) (q : string) :
  exists x1 x2, join nl (a +++ (nl ++ String "=" q) :: b) = x1 ++ String "=" x2.
Proof.
  induction a as [|x a (x1 & x2 & IH)].
  - exists nl. destruct b as [|y b]; cbn; eexists; reflexivity.
  - cbn [app]. rewrite join_cons by (destruct a; discriminate).
    rewrite IH. exists (x ++ nl ++ x1), x2.
    rewrite !append_assoc. reflexivity.
Qed.

(** The report starts with the title and the date line, as the lines were
    appended: [strip] removes nothing before the rule. *)
Lemma strip_report (date_line : string) (prefs body : list string) :
  exists rest,
    strip (join nl (["WEEKLY MEAL PLAN"; date_line] +++ prefs
                    +++ [nl ++ str_mul "=" 50 ++ nl] +++ body))
    = "WEEKLY MEAL PLAN" ++ nl ++ date_line ++ rest.
Proof.
  cbn [app].
  rewrite join_cons by discriminate.
  rewrite join_cons by (destruct prefs; discriminate).
  destruct (join_has_rule prefs body (str_mul "=" 49 ++ nl)) as (x1 & x2 & Hrule).
  change (nl ++ String "=" (str_mul "=" 49 ++ nl))
    with (nl ++ str_mul "=" 50 ++ nl) in Hrule.
  change ((prefs +++ [nl ++ str_mul "=" 50 ++ nl]) +++ body) with
    (prefs +++ [nl ++ str_mul "=" 50 ++ nl] +++ body).
  change (prefs +++ [nl ++ str_mul "=" 50 ++ nl] +++ body)
    with (prefs +++ (nl ++ str_mul "=" 50 ++ nl) :: body).
  rewrite Hrule. unfold strip. rewrite lstrip_title.
  replace ("WEEKLY MEAL PLAN" ++ nl ++ date_line ++ nl ++ x1 ++ String "=" x2)
    with (("WEEKLY MEAL PLAN" ++ nl ++ date_line ++ nl ++ x1) ++ String "=" x2)
    by (rewrite !append_assoc; reflexivity).
  destruct (rstrip_keeps ("WEEKLY MEAL PLAN" ++ nl ++ date_line ++ nl ++ x1) x2)
    as [q' ->].
  exists (nl ++ x1 ++ String "=" q').
  rewrite !append_assoc. reflexivity.
Qed.

End Strip.

Lemma report_shows_date (shown : string) (prefs body : list string) :
  shows_date shown
    (Ok (strip (join nl (["WEEKLY MEAL PLAN"; "Generated: " ++ shown ++ nl]
                         +++ prefs +++ [nl ++ str_mul "=" 50 ++ nl] +++ body)))).
Proof.
  destruct (Strip.strip_report ("Generated: " ++ shown ++ nl) prefs body)
    as [rest ->].
  exists rest. rewrite !Strip.append_assoc. reflexivity.
Qed.

(** ** C7: the date line *)

(** C7.  For a non-empty event date [ev] and a well-shaped plan, the
    formatter returns a report (it does not raise) whose second line is
    "Generated: " followed by [ev] itself when [fromisoformat], applied to
    [ev] with its "Z" replaced by "+00:00", rejects it, and by the date in
    the long form ("Friday, December 25 2026") when it parses. *)
Theorem C7_unparsable_event_date_is_echoed_parsable_is_rendered_long
        (rt : PyRuntime) (now : datetime) (meal_plan : pyval)
        (preferences : pydict) (ev : string) :
  dict_get "eventDate" preferences = Some (VStr ev) ->
  ev <> "" ->
  well_shaped meal_plan = true ->
  (fromisoformat rt (replace_char "Z" "+00:00" ev) = None ->
   shows_date ev (format_meal_plan rt now meal_plan preferences))
  /\ (forall d : datetime,
         fromisoformat rt (replace_char "Z" "+00:00" ev) = Some d ->
         shows_date (strftime_long d)
                    (format_meal_plan rt now meal_plan preferences)).
Proof.
  intros Hev Hne Hshape.
  apply String.eqb_neq in Hne.
  unfold format_meal_plan, readable_date.
  rewrite Hev. cbn [truthy]. rewrite Hne. cbn [negb].
  destruct (preference_lines_ok rt preferences) as [prefs ->].
  destruct (plan_lines_ok rt meal_plan Hshape) as [body ->].
  cbn [rbind].
  split; [intros ->|intros d ->]; cbn [py_str]; apply report_shows_date.
Qed.

Lemma C7_witness :
  shows_date "tomorrow"
    (format_meal_plan sample_runtime november_3 sample_plan
       (preferences_of None None None None (Some "tomorrow")))
  /\ shows_date "Friday, December 25 2026"
       (format_meal_plan sample_runtime november_3 sample_plan
          (preferences_of None None None None (Some "2026-12-25"))).
Proof.
  split.
  - apply (proj1 (C7_unparsable_event_date_is_echoed_parsable_is_rendered_long
                    sample_runtime november_3 sample_plan
                    (preferences_of None None None None (Some "tomorrow"))
                    "tomorrow" eq_refl ltac:(discriminate) eq_refl)).
    reflexivity.
  - apply (proj2 (C7_unparsable_event_date_is_echoed_parsable_is_rendered_long
                    sample_runtime november_3 sample_plan
                    (preferences_of None None None None (Some "2026-12-25"))
                    "2026-12-25" eq_refl ltac:(discriminate) eq_refl)
                 (mk_datetime 2026 12 25 0 0 0)).
    reflexivity.
Defined.

(** The claim as stated fails on the empty string: it does not parse, and
    the date line shows the day of the call, not the empty string. *)
Lemma C7_counterexample :
  fromisoformat sample_runtime (replace_char "Z" "+00:00" "") = None
  /\ format_meal_plan sample_runtime november_3 (VDict [])
       (preferences_of None None None None (Some ""))
     = Ok ("WEEKLY MEAL PLAN" ++ nl
           ++ "Generated: Tuesday, November 03 2026" ++ nl ++ nl ++ nl
           ++ str_mul "=" 50)
  /\ ~ (exists rt : PyRuntime,
           shows_date ""
             (format_meal_plan rt november_3 (VDict [])
                (preferences_of None None None None (Some "")))).
Proof.
  split; [reflexivity|]. split; [vm_compute; reflexivity|].
  intros (rt & rest & H). vm_compute in H. discriminate H.
Qed.

(** ** C6: the report and the clock *)

(** The report depends on the preferences through the date and the
    preference lines only. *)
Lemma format_meal_plan_congr (rt : PyRuntime) (now now' : datetime)
      (plan : pyval) (p q : pydict) :
  readable_date rt now p = readable_date rt now' q ->
  preference_lines rt p = preference_lines rt q ->
  format_meal_plan rt now plan p = format_meal_plan rt now' plan q.
Proof.
  intros Hdate Hlines. unfold format_meal_plan.
  rewrite Hdate, Hlines. reflexivity.
Qed.

(** C6.  Two calls on the same plan and the same preferences return the
    same outcome, byte for byte, when the event date is truthy (the clock
    is not read), and in any case when the two calls fall on the same UTC
    day. *)
Theorem C6_same_report_given_event_date_or_same_utc_day
        (rt : PyRuntime) (now1 now2 : datetime) (meal_plan : pyval)
        (preferences : pydict) :
  truthy (event_date_of preferences) = true
  \/ (dt_year now1 = dt_year now2 /\ dt_month now1 = dt_month now2
      /\ dt_day now1 = dt_day now2) ->
  format_meal_plan rt now1 meal_plan preferences
  = format_meal_plan rt now2 meal_plan preferences.
Proof.
  intros Hcase. apply format_meal_plan_congr; [|reflexivity].
  unfold readable_date. fold (event_date_of preferences).
  destruct Hcase as [->|(Hy & Hm & Hd)]; [reflexivity|].
  destruct (truthy _); [reflexivity|].
  unfold strftime_long, weekday, toordinal. rewrite Hy, Hm, Hd. reflexivity.
Qed.

Lemma C6_witness :
  format_meal_plan sample_runtime november_3 sample_plan
    (preferences_of (Some 4) None None None (Some "2026-12-25"))
  = format_meal_plan sample_runtime november_4 sample_plan
      (preferences_of (Some 4) None None None (Some "2026-12-25")).
Proof.
  apply (C6_same_report_given_event_date_or_same_utc_day
           sample_runtime november_3 november_4 sample_plan
           (preferences_of (Some 4) None None None (Some "2026-12-25"))).
  left. reflexivity.
Defined.

(** The claim as stated fails without an event date: the same plan and the
    same preferences give two texts on two days, under every runtime. *)
Lemma C6_counterexample :
  format_meal_plan sample_runtime november_3 (VDict [])
    (preferences_of None None None None None)
  = Ok ("WEEKLY MEAL PLAN" ++ nl
        ++ "Generated: Tuesday, November 03 2026" ++ nl ++ nl ++ nl
        ++ str_mul "=" 50)
  /\ format_meal_plan sample_runtime november_4 (VDict [])
       (preferences_of None None None None None)
     = Ok ("WEEKLY MEAL PLAN" ++ nl
           ++ "Generated: Wednesday, November 04 2026" ++ nl ++ nl ++ nl
           ++ str_mul "=" 50)
  /\ ~ (exists rt : PyRuntime,
           format_meal_plan rt november_3 (VDict [])
             (preferences_of None None None None None)
           = format_meal_plan rt november_4 (VDict [])
               (preferences_of None None None None None)).
Proof.
  split; [vm_compute; reflexivity|]. split; [vm_compute; reflexivity|].
  intros (rt & H). vm_compute in H. discriminate H.
Qed.

(** ** C4 and C5 on concrete plans *)

Lemma C4_witness :
  exists text : string,
    format_meal_plan sample_runtime november_3 sparse_plan
      (preferences_of None None None None None) = Ok text.
Proof.
  apply (C4_formatter_returns_text_on_well_shaped_plans
           sample_runtime november_3 sparse_plan
           (preferences_of None None None None None)).
  reflexivity.
Defined.

(** The text of that report: the placeholders stand for the missing title,
    nutrients and item name; the lines of the other missing fields are not
    there. *)
Example sparse_plan_report :
  format_meal_plan sample_runtime november_3 sparse_plan
    (preferences_of None None None None None)
  = Ok (join nl
          ["WEEKLY MEAL PLAN";
           "Generated: Tuesday, November 03 2026";
           "";
           "";
           str_mul "=" 50;
           "";
           "DAY Unknown";
           str_mul "-" 30;
           "🍽️ Untitled Meal";
           "   Servings: 2";
           "";
           "";
           str_mul "=" 50;
           "NUTRITION SUMMARY";
           str_mul "-" 30;
           "Calories: 2000";
           "Protein: N/Ag";
           "Fat: N/Ag";
           "Carbohydrates: N/Ag";
           "";
           str_mul "=" 50;
           "GROCERY LIST";
           str_mul "-" 30;
           "☑ Rice (Grains)";
           "☑ Unnamed Item"]).
Proof. vm_compute. reflexivity. Qed.

(** The claim as stated fails outside the well-shaped plans: on a plan that
    is not an object, on a meal that is not an object and on nutrients that
    are not an object the formatter raises [AttributeError], under every
    runtime, clock and preferences. *)
Lemma C4_counterexample :
  format_meal_plan sample_runtime november_3
    (VDict [("meals", VList [VInt 1])]) (preferences_of None None None None None)
  = Raise (Exn AttributeError "'int' object has no attribute 'get'")
  /\ ~ (exists rt now preferences text,
           format_meal_plan rt now (VList []) preferences = Ok text)
  /\ ~ (exists rt now preferences text,
           format_meal_plan rt now (VDict [("meals", VList [VInt 1])])
                            preferences = Ok text)
  /\ ~ (exists rt now preferences text,
           format_meal_plan rt now (VDict [("nutrients", VStr "none")])
                            preferences = Ok text).
Proof.
  split; [vm_compute; reflexivity|].
  repeat split; intros (rt & now & preferences & text & H);
    unfold format_meal_plan in H;
    destruct (preference_lines rt preferences); discriminate H.
Qed.

Lemma C5_witness :
  (exists days : list string,
      StronglySorted label_lt days
      /\ (forall d, In d days <->
                    exists m, In m sample_meals /\ day_of sample_runtime m = Ok d)
      /\ meals_block sample_runtime sample_meals
         = concat_map_r
             (fun d => day_block sample_runtime d
                                 (filter (tagged sample_runtime d) sample_meals))
             days)
  /\ meals_block sample_runtime sample_meals
     = Ok ["DAY 1";
           str_mul "-" 30;
           "🍽️ Salad";
           "   Recipe URL: https://spoonacular.com/recipes/-12";
           "";
           "🍽️ Pasta";
           "   Recipe URL: https://spoonacular.com/recipes/-13";
           "";
           "";
           "DAY 2";
           str_mul "-" 30;
           "🍽️ Soup";
           "   Recipe URL: https://spoonacular.com/recipes/-11";
           "";
           ""].
Proof.
  split.
  - apply (C5_day_groups_in_increasing_label_order_meals_in_list_order
             sample_runtime sample_meals).
    reflexivity.
  - vm_compute. reflexivity.
Defined.

(** The claim as stated fails on numeric labels: the days 2 and 10, given
    as numbers, come out as DAY 10 then DAY 2, the order of the texts "10"
    and "2", not of the numbers. *)
Lemma C5_counterexample :
  meals_block sample_runtime
    [VDict [("day", VInt 2); ("title", VStr "Lunch")];
     VDict [("day", VInt 10); ("title", VStr "Dinner")]]
  = Ok ["DAY 10"; str_mul "-" 30; "🍽️ Dinner"; ""; "";
        "DAY 2"; str_mul "-" 30; "🍽️ Lunch"; ""; ""]
  /\ 2 < 10
  /\ label_lt "10" "2".
Proof.
  split; [vm_compute; reflexivity|]. split; [lia|reflexivity].
Qed.

(** * Further properties of the module *)

(** ** [call_spoonacular]: the request *)

Lemma dict_get_set_same (k : string) (v : pyval) (d : pydict) :
  dict_get k (dict_set k v d) = Some v.
Proof.
  induction d as [|[k0 v0] d IH]; cbn.
  - rewrite String.eqb_refl. reflexivity.
  - destruct (String.eqb_spec k0 k) as [->|Hne]; cbn.
    + rewrite String.eqb_refl. reflexivity.
    + apply String.eqb_neq in Hne. rewrite Hne. exact IH.
Qed.

Lemma dict_get_set_other (k k' : string) (v : pyval) (d : pydict) :
  k <> k' -> dict_get k' (dict_set k v d) = dict_get k' d.
Proof.
  intros Hne. induction d as [|[k0 v0] d IH]; cbn.
  - apply String.eqb_neq in Hne. rewrite Hne. reflexivity.
  - destruct (String.eqb_spec k0 k) as [->|Hk0]; cbn.
    + apply String.eqb_neq in Hne. rewrite Hne. reflexivity.
    + rewrite IH. reflexivity.
Qed.

Lemma api_key_of_environ (w : world) (key : string) :
  environ w "SPOONACULAR_API_KEY" = Some key -> SPOONACULAR_API_KEY w = key.
Proof. unfold SPOONACULAR_API_KEY. intros ->. reflexivity. Qed.

(** The run of [call_spoonacular] on any endpoint. *)
Lemma call_spoonacular_any (endpoint : string) (params : pydict) (w : world) :
  call_spoonacular endpoint params w =
  if (SPOONACULAR_API_KEY w =? "")%string then (Raise no_credential, [])
  else
    let req :=
      mk_request (SPOONACULAR_BASE_URL ++ endpoint)
                 (dict_set "apiKey" (VStr (SPOONACULAR_API_KEY w)) params) 30 in
    (let? response := network w req in
     let? _ := raise_for_status response in
     json_body response,
     [EvGet req]).
Proof.
  unfold call_spoonacular.
  destruct (SPOONACULAR_API_KEY w =? "")%string; [reflexivity|].
  unfold bind, requests_get, lift, rbind. cbv zeta.
  destruct (network w _) as [resp|e]; [|reflexivity].
  destruct (raise_for_status resp) as [[]|e]; [|reflexivity].
  destruct (json_body resp); reflexivity.
Qed.

(** X1.  With a non-empty credential, [call_spoonacular] causes exactly
    one event whatever the answer is: one GET to the base URL followed by
    the endpoint, with the caller's parameters plus the credential and the
    timeout of 30 seconds.  A failed request is not tried again. *)
Theorem call_spoonacular_issues_exactly_one_request
        (endpoint : string) (params : pydict) (w : world) (key : string) :
  environ w "SPOONACULAR_API_KEY" = Some key ->
  key <> "" ->
  events (call_spoonacular endpoint params) w
  = [EvGet (mk_request ("https://api.spoonacular.com" ++ endpoint)
                       (dict_set "apiKey" (VStr key) params) 30)].
Proof.
  intros Henv Hkey. unfold events. rewrite call_spoonacular_any.
  rewrite (api_key_of_environ w key Henv).
  apply String.eqb_neq in Hkey. rewrite Hkey. reflexivity.
Qed.

Lemma call_spoonacular_issues_exactly_one_request_witness :
  events (call_spoonacular "/mealplanner/generate" [("timeFrame", VStr "day")])
         unauthorized_world
  = [EvGet (mk_request "https://api.spoonacular.com/mealplanner/generate"
                       [("timeFrame", VStr "day"); ("apiKey", VStr "k3y")] 30)].
Proof.
  apply (call_spoonacular_issues_exactly_one_request
           "/mealplanner/generate" [("timeFrame", VStr "day")]
           unauthorized_world "k3y" eq_refl).
  discriminate.
Defined.

(** X2.  A credential set to the empty string counts as no credential:
    the same [RuntimeError], and no request. *)
Theorem call_spoonacular_empty_credential_is_missing
        (endpoint : string) (params : pydict) (w : world) :
  environ w "SPOONACULAR_API_KEY" = Some "" ->
  call_spoonacular endpoint params w
  = (Raise (Exn RuntimeError
                "SPOONACULAR_API_KEY environment variable is not set."),
     []).
Proof.
  intros Henv. rewrite call_spoonacular_any.
  rewrite (api_key_of_environ w "" Henv). reflexivity.
Qed.

Lemma call_spoonacular_empty_credential_is_missing_witness :
  call_spoonacular "/mealplanner/generate" [] empty_key_world
  = (Raise (Exn RuntimeError
                "SPOONACULAR_API_KEY environment variable is not set."),
     []).
Proof.
  apply (call_spoonacular_empty_credential_is_missing
           "/mealplanner/generate" [] empty_key_world).
  reflexivity.
Defined.

(** X3.  In the query of a request [call_spoonacular] issues, [apiKey] is
    the credential of the process, also when the caller passed an [apiKey]
    of its own, and every other key is bound as in the caller's
    parameters. *)
Theorem call_spoonacular_query_is_params_with_credential
        (endpoint : string) (params : pydict) (w : world) (req : request) :
  In (EvGet req) (events (call_spoonacular endpoint params) w) ->
  dict_get "apiKey" (req_params req) = Some (VStr (SPOONACULAR_API_KEY w))
  /\ (forall k, k <> "apiKey" ->
                dict_get k (req_params req) = dict_get k params).
Proof.
  unfold events. rewrite call_spoonacular_any.
  destruct (SPOONACULAR_API_KEY w =? "")%string; [intros []|].
  cbv zeta. cbn [snd].
  intros [[= <-]|[]]. cbn [req_params]. split.
  - apply dict_get_set_same.
  - intros k Hk. apply dict_get_set_other. congruence.
Qed.

Lemma call_spoonacular_query_is_params_with_credential_witness :
  exists req : request,
    events (call_spoonacular "/x" [("apiKey", VStr "mine"); ("diet", VStr "vegan")])
           sample_world = [EvGet req]
    /\ dict_get "apiKey" (req_params req) = Some (VStr "k3y")
    /\ dict_get "diet" (req_params req) = Some (VStr "vegan").
Proof.
  eexists. split; [vm_compute; reflexivity|].
  destruct (call_spoonacular_query_is_params_with_credential
              "/x" [("apiKey", VStr "mine"); ("diet", VStr "vegan")]
              sample_world _ (or_introl eq_refl)) as [Hkey Hrest].
  split; [exact Hkey|].
  exact (Hrest "diet" ltac:(discriminate)).
Defined.

(** X4.  When the upstream answers with a status from 400 to 599,
    [call_spoonacular] raises [HTTPError] without looking at the body, even
    a body that is valid JSON; with any other status its outcome is the
    outcome of decoding the body. *)
Theorem call_spoonacular_outcome_follows_the_status
        (endpoint : string) (params : pydict) (w : world) (key : string)
        (resp : response) :
  environ w "SPOONACULAR_API_KEY" = Some key ->
  key <> "" ->
  network w (mk_request ("https://api.spoonacular.com" ++ endpoint)
                        (dict_set "apiKey" (VStr key) params) 30) = Ok resp ->
  (400 <= status_code resp < 600 ->
   exists msg, outcome (call_spoonacular endpoint params) w
               = Raise (Exn HTTPError msg))
  /\ (status_code resp < 400 \/ 600 <= status_code resp ->
      outcome (call_spoonacular endpoint params) w = json_body resp).
Proof.
  intros Henv Hkey Hnet. unfold outcome. rewrite call_spoonacular_any.
  rewrite (api_key_of_environ w key Henv).
  apply String.eqb_neq in Hkey. rewrite Hkey. cbv zeta. cbn [fst].
  change (SPOONACULAR_BASE_URL ++ endpoint)
    with ("https://api.spoonacular.com" ++ endpoint).
  rewrite Hnet. cbn [rbind]. unfold raise_for_status. split.
  - intros [Hlo Hhi].
    destruct (Z.ltb_spec (status_code resp) 500) as [H5|H5].
    + replace (400 <=? status_code resp) with true
        by (symmetry; apply Z.leb_le; lia).
      replace (status_code resp <? 500) with true
        by (symmetry; apply Z.ltb_lt; lia).
      eexists. reflexivity.
    + replace (status_code resp <? 500) with false
        by (symmetry; apply Z.ltb_ge; lia).
      rewrite andb_false_r.
      replace (500 <=? status_code resp) with true
        by (symmetry; apply Z.leb_le; lia).
      replace (status_code resp <? 600) with true
        by (symmetry; apply Z.ltb_lt; lia).
      eexists. reflexivity.
  - intros [Hlow|Hhigh].
    + replace (400 <=? status_code resp) with false
        by (symmetry; apply Z.leb_gt; lia).
      replace (500 <=? status_code resp) with false
        by (symmetry; apply Z.leb_gt; lia).
      destruct (json_body resp); reflexivity.
    + replace (status_code resp <? 500) with false
        by (symmetry; apply Z.ltb_ge; lia).
      replace (status_code resp <? 600) with false
        by (symmetry; apply Z.ltb_ge; lia).
      rewrite !andb_false_r. destruct (json_body resp); reflexivity.
Qed.

Lemma call_spoonacular_outcome_follows_the_status_witness :
  exists msg : string,
    outcome (call_spoonacular "/mealplanner/generate" []) unauthorized_world
    = Raise (Exn HTTPError msg).
Proof.
  apply (proj1 (call_spoonacular_outcome_follows_the_status
                  "/mealplanner/generate" [] unauthorized_world "k3y"
                  (mk_response 401 "Unauthorized"
                     "https://api.spoonacular.com/mealplanner/generate"
                     (Ok (VDict [("status", VStr "failure")])))
                  eq_refl ltac:(discriminate) eq_refl)).
  cbn. lia.
Defined.

(** ** The two surfaces over [_generate_meal_plan_internal] *)

(** The tool, once the time frame is accepted, and the CLI, as functions
    of the run of [_generate_meal_plan_internal]. *)
Lemma tool_run (rt : PyRuntime) tf tc diet excl fs ev (w : world) :
  tf = "day" \/ tf = "week" ->
  generate_meal_plan rt tf tc diet excl fs ev w =
  match _generate_meal_plan_internal rt tf tc diet excl fs ev w with
  | (Ok (meal_plan, doc_text, _), t) =>
      (Ok (json_dumps rt
             (VDict (envelope meal_plan doc_text VNone
                              (preferences_of fs tc diet excl ev)))), t)
  | (Raise e, t) => (Raise (Exn RuntimeError (exn_msg e)), t)
  end.
Proof.
  intros Htf. unfold generate_meal_plan.
  replace (negb ((tf =? "day")%string || (tf =? "week")%string)) with false
    by (destruct Htf as [->| ->]; reflexivity).
  unfold bind, try_except, raise, ret.
  destruct (_generate_meal_plan_internal rt tf tc diet excl fs ev w)
    as [[[[plan text] doc]|e] t]; cbn; rewrite app_nil_r; reflexivity.
Qed.

Lemma cli_run (rt : PyRuntime) tf tc diet excl fs ev (w : world) :
  run_cli rt (mk_cli_args tf tc diet excl fs ev) w =
  match _generate_meal_plan_internal rt tf tc diet excl fs ev w with
  | (Ok (meal_plan, doc_text, document_info), t) =>
      (Ok tt,
       t +++ [EvPrint (json_dumps rt
                         (VDict (envelope meal_plan doc_text document_info
                                          (preferences_of fs tc diet excl ev))))])
  | (Raise e, t) => (Raise e, t)
  end.
Proof.
  unfold run_cli, bind, print. cbn [arg_time_frame arg_target_calories
    arg_diet arg_exclude arg_family_size arg_event_date].
  destruct (_generate_meal_plan_internal rt tf tc diet excl fs ev w)
    as [[[[plan text] doc]|e] t]; reflexivity.
Qed.

(** A run of [_generate_meal_plan_internal] that returns: the credential
    was there, the upstream answered with a status that is no error and a
    body that is JSON, and the formatter returned the text. *)
Lemma internal_ok_inv (rt : PyRuntime) tf tc diet excl fs ev (w : world)
      (plan : pyval) (text : string) (doc : pyval) :
  outcome (_generate_meal_plan_internal rt tf tc diet excl fs ev) w
  = Ok (plan, text, doc) ->
  exists resp,
    events (_generate_meal_plan_internal rt tf tc diet excl fs ev) w
    = [EvGet (upstream_request w (upstream_params tf tc diet excl))]
    /\ network w (upstream_request w (upstream_params tf tc diet excl)) = Ok resp
    /\ raise_for_status resp = Ok tt
    /\ json_body resp = Ok plan
    /\ format_meal_plan rt (utcnow w) plan (preferences_of fs tc diet excl ev)
       = Ok text
    /\ doc = VNone.
Proof.
  unfold outcome, events. rewrite internal_run.
  destruct (SPOONACULAR_API_KEY w =? "")%string; [discriminate|].
  cbn [fst snd].
  destruct (network w _) as [resp|e] eqn:Hnet; [|discriminate]. cbn [rbind].
  destruct (raise_for_status resp) as [[]|e] eqn:Hstatus; [|discriminate].
  cbn [rbind].
  destruct (json_body resp) as [plan0|e] eqn:Hbody; [|discriminate].
  cbn [rbind].
  destruct (format_meal_plan _ _ _ _) as [text0|e] eqn:Hformat;
    [|discriminate]. cbn [rbind].
  intros [= <- <- <-]. exists resp. repeat split; assumption || reflexivity.
Qed.

(** The events of a run of [_generate_meal_plan_internal]: none, or the
    one request. *)
Lemma internal_events (rt : PyRuntime) tf tc diet excl fs ev (w : world) :
  events (_generate_meal_plan_internal rt tf tc diet excl fs ev) w
  = if (SPOONACULAR_API_KEY w =? "")%string then []
    else [EvGet (upstream_request w (upstream_params tf tc diet excl))].
Proof.
  unfold events. rewrite internal_run.
  destruct (SPOONACULAR_API_KEY w =? "")%string; reflexivity.
Qed.

(** X5.  The tool raises two kinds of exception only: the [ValueError] of
    its own check, when the time frame is neither "day" nor "week"; and a
    [RuntimeError] that carries the message of whatever exception
    [_generate_meal_plan_internal] raised (missing credential, failed
    request, error status, body that is not JSON, formatter), with the
    events of that run. *)
Theorem generate_meal_plan_raises_value_error_or_wraps_in_runtime_error
        (rt : PyRuntime) (time_frame : string) (target_calories : option Z)
        (diet exclude : option string) (family_size : option Z)
        (event_date : option string) (w : world) (e : exn) :
  outcome (generate_meal_plan rt time_frame target_calories diet exclude
                              family_size event_date) w = Raise e ->
  (time_frame <> "day" /\ time_frame <> "week"
   /\ e = Exn ValueError "time_frame must be either 'day' or 'week'")
  \/ (exists e0 : exn,
         outcome (_generate_meal_plan_internal
                    rt time_frame target_calories diet exclude family_size
                    event_date) w = Raise e0
         /\ e = Exn RuntimeError (exn_msg e0)
         /\ events (generate_meal_plan rt time_frame target_calories diet
                                       exclude family_size event_date) w
            = events (_generate_meal_plan_internal
                        rt time_frame target_calories diet exclude family_size
                        event_date) w).
Proof.
  destruct (String.eqb_spec time_frame "day") as [Hday|Hday];
    [|destruct (String.eqb_spec time_frame "week") as [Hweek|Hweek]].
  3: { unfold outcome, generate_meal_plan.
       rewrite (proj2 (String.eqb_neq _ _) Hday).
       rewrite (proj2 (String.eqb_neq _ _) Hweek).
       cbn. intros [= <-]. left. auto. }
  all: unfold outcome, events; rewrite tool_run by auto;
    destruct (_generate_meal_plan_internal _ _ _ _ _ _ _ w)
      as [[[[plan text] doc]|e0] t]; cbn [fst snd]; [discriminate|];
    intros [= <-]; right; exists e0; auto.
Qed.

Lemma generate_meal_plan_raises_value_error_or_wraps_in_runtime_error_witness :
  exists e0 : exn,
    outcome (_generate_meal_plan_internal sample_runtime "day" None None None
                                          None None) unauthorized_world
    = Raise e0
    /\ exn_class_of e0 = HTTPError
    /\ outcome (generate_meal_plan sample_runtime "day" None None None None None)
               unauthorized_world
       = Raise (Exn RuntimeError (exn_msg e0)).
Proof.
  destruct (outcome (generate_meal_plan sample_runtime "day" None None None
                                        None None) unauthorized_world)
    as [s|e] eqn:Hrun; [vm_compute in Hrun; discriminate Hrun|].
  destruct (generate_meal_plan_raises_value_error_or_wraps_in_runtime_error
              sample_runtime "day" None None None None None
              unauthorized_world e Hrun)
    as [(Hday & _)|(e0 & Hinternal & -> & _)]; [contradiction Hday; reflexivity|].
  exists e0. split; [exact Hinternal|]. split; [|reflexivity].
  vm_compute in Hinternal. injection Hinternal as <-. reflexivity.
Defined.

(** X6.  For an accepted time frame the two surfaces agree: the tool
    returns a reply exactly when the CLI prints that same reply, and both
    issue the same requests. *)
Theorem tool_and_cli_give_the_same_reply_and_requests
        (rt : PyRuntime) (time_frame : string) (target_calories : option Z)
        (diet exclude : option string) (family_size : option Z)
        (event_date : option string) (w : world) :
  time_frame = "day" \/ time_frame = "week" ->
  (forall s : string,
      outcome (generate_meal_plan rt time_frame target_calories diet exclude
                                  family_size event_date) w = Ok s
      <-> In (EvPrint s)
             (events (run_cli rt (mk_cli_args time_frame target_calories diet
                                              exclude family_size event_date))
                     w))
  /\ requests_of
       (events (generate_meal_plan rt time_frame target_calories diet exclude
                                   family_size event_date) w)
     = requests_of
         (events (run_cli rt (mk_cli_args time_frame target_calories diet
                                          exclude family_size event_date)) w).
Proof.
  intros Htf. unfold outcome, events. rewrite tool_run by exact Htf.
  rewrite cli_run.
  pose proof (internal_events rt time_frame target_calories diet exclude
                              family_size event_date w) as Hev.
  pose proof (internal_ok_inv rt time_frame target_calories diet exclude
                              family_size event_date w) as Hinv.
  unfold events, outcome in Hev, Hinv.
  destruct (_generate_meal_plan_internal _ _ _ _ _ _ _ w)
    as [[[[plan text] doc]|e] t]; cbn [fst snd] in *.
  - destruct (Hinv plan text doc eq_refl) as (resp & _ & _ & _ & _ & _ & ->).
    subst t.
    destruct (SPOONACULAR_API_KEY w =? "")%string; cbn; split;
      try reflexivity; intros s; split.
    + intros [= <-]. left. reflexivity.
    + intros [[= <-]|[]]. reflexivity.
    + intros [= <-]. right. left. reflexivity.
    + intros [[=]|[[= <-]|[]]]. reflexivity.
  - subst t. split; [|reflexivity]. intros s. split; [discriminate|].
    destruct (SPOONACULAR_API_KEY w =? "")%string; cbn;
      [intros []|intros [[=]|[]]].
Qed.

Lemma tool_and_cli_give_the_same_reply_and_requests_witness :
  exists s : string,
    outcome (generate_meal_plan sample_runtime "week" None (Some "vegan") None
                                (Some 4) None) sample_world = Ok s
    /\ In (EvPrint s)
          (events (run_cli sample_runtime
                           (mk_cli_args "week" None (Some "vegan") None (Some 4)
                                        None)) sample_world).
Proof.
  destruct (outcome (generate_meal_plan sample_runtime "week" None
                                        (Some "vegan") None (Some 4) None)
                    sample_world) as [s|e] eqn:Hrun;
    [|vm_compute in Hrun; discriminate Hrun].
  exists s. split; [reflexivity|].
  apply (proj1 (tool_and_cli_give_the_same_reply_and_requests
                  sample_runtime "week" None (Some "vegan") None (Some 4) None
                  sample_world (or_intror eq_refl))).
  exact Hrun.
Defined.

(** X7.  One invocation issues at most one request and never retries: the
    tool causes no event or one GET, and never prints; the CLI causes no
    event when it fails before the request, the one GET when it fails
    after it, and the GET followed by one printed line when it succeeds. *)
Theorem one_invocation_issues_at_most_one_request
        (rt : PyRuntime) (time_frame : string) (target_calories : option Z)
        (diet exclude : option string) (family_size : option Z)
        (event_date : option string) (w : world) :
  (events (generate_meal_plan rt time_frame target_calories diet exclude
                              family_size event_date) w = []
   \/ exists req,
        events (generate_meal_plan rt time_frame target_calories diet exclude
                                   family_size event_date) w = [EvGet req])
  /\ ((exists e,
          run_cli rt (mk_cli_args time_frame target_calories diet exclude
                                  family_size event_date) w = (Raise e, []))
      \/ (exists e req,
             run_cli rt (mk_cli_args time_frame target_calories diet exclude
                                     family_size event_date) w
             = (Raise e, [EvGet req]))
      \/ (exists req s,
             run_cli rt (mk_cli_args time_frame target_calories diet exclude
                                     family_size event_date) w
             = (Ok tt, [EvGet req; EvPrint s]))).
Proof.
  split.
  - unfold events, generate_meal_plan.
    destruct (negb _) eqn:Htf; [left; reflexivity|].
    apply negb_false_iff, orb_prop in Htf.
    assert (Hvalid : time_frame = "day" \/ time_frame = "week")
      by (destruct Htf as [H|H]; apply String.eqb_eq in H; auto).
    pose proof (tool_run rt time_frame target_calories diet exclude
                         family_size event_date w Hvalid) as Hrun.
    unfold generate_meal_plan in Hrun.
    replace (negb ((time_frame =? "day")%string || (time_frame =? "week")%string))
      with false in Hrun by (destruct Hvalid as [->| ->]; reflexivity).
    rewrite Hrun.
    pose proof (internal_events rt time_frame target_calories diet exclude
                                family_size event_date w) as Hev.
    unfold events in Hev.
    destruct (_generate_meal_plan_internal _ _ _ _ _ _ _ w)
      as [[[[plan text] doc]|e] t]; cbn [snd] in *; subst t;
      destruct (SPOONACULAR_API_KEY w =? "")%string; eauto.
  - rewrite cli_run.
    pose proof (internal_events rt time_frame target_calories diet exclude
                                family_size event_date w) as Hev.
    pose proof (internal_ok_inv rt time_frame target_calories diet exclude
                                family_size event_date w) as Hinv.
    unfold events, outcome in Hev, Hinv.
    destruct (_generate_meal_plan_internal _ _ _ _ _ _ _ w)
      as [[[[plan text] doc]|e] t]; cbn [fst snd] in *.
    + clear Hev. destruct (Hinv plan text doc eq_refl) as (resp & -> & _).
      right. right. do 2 eexists. reflexivity.
    + subst t. destruct (SPOONACULAR_API_KEY w =? "")%string; eauto 6.
Qed.

(** X9.  A reply of the tool carries the plan as the upstream sent it,
    unchanged, under [mealPlan], and under [formattedText] the text the
    formatter gives for that plan, the preferences of the call and the
    clock of the call. *)
Theorem tool_reply_carries_the_upstream_plan_and_its_report
        (rt : PyRuntime) (time_frame : string) (target_calories : option Z)
        (diet exclude : option string) (family_size : option Z)
        (event_date : option string) (w : world) (s : string) :
  outcome (generate_meal_plan rt time_frame target_calories diet exclude
                              family_size event_date) w = Ok s ->
  exists (resp : response) (plan : pyval) (text : string),
    network w (upstream_request
                 w (upstream_params time_frame target_calories diet exclude))
    = Ok resp
    /\ json_body resp = Ok plan
    /\ format_meal_plan rt (utcnow w) plan
         (preferences_of family_size target_calories diet exclude event_date)
       = Ok text
    /\ s = json_dumps rt
             (VDict [("mealPlan", plan);
                     ("formattedText", VStr text);
                     ("document", VNone);
                     ("preferences",
                      VDict (preferences_of family_size target_calories diet
                                            exclude event_date))]).
Proof.
  intros Hrun.
  assert (Hvalid : time_frame = "day" \/ time_frame = "week").
  { revert Hrun. unfold outcome, generate_meal_plan.
    destruct (String.eqb_spec time_frame "day") as [->|_]; [auto|].
    destruct (String.eqb_spec time_frame "week") as [->|_]; [auto|].
    discriminate. }
  revert Hrun. unfold outcome. rewrite tool_run by exact Hvalid.
  pose proof (internal_ok_inv rt time_frame target_calories diet exclude
                              family_size event_date w) as Hinv.
  unfold outcome in Hinv.
  destruct (_generate_meal_plan_internal _ _ _ _ _ _ _ w)
    as [[[[plan text] doc]|e] t]; cbn [fst] in *; [|discriminate].
  intros [= <-].
  destruct (Hinv plan text doc eq_refl)
    as (resp & _ & Hnet & _ & Hbody & Hformat & _).
  exists resp, plan, text. auto.
Qed.

Lemma tool_reply_carries_the_upstream_plan_and_its_report_witness :
  exists (s text : string),
    outcome (generate_meal_plan sample_runtime "day" None None None None
                                (Some "2026-12-25")) sample_world = Ok s
    /\ format_meal_plan sample_runtime november_3 sample_plan
         (preferences_of None None None None (Some "2026-12-25")) = Ok text
    /\ s = json_dumps sample_runtime
             (VDict [("mealPlan", sample_plan);
                     ("formattedText", VStr text);
                     ("document", VNone);
                     ("preferences",
                      VDict (preferences_of None None None None
                                            (Some "2026-12-25")))]).
Proof.
  destruct (outcome (generate_meal_plan sample_runtime "day" None None None
                                        None (Some "2026-12-25")) sample_world)
    as [s|e] eqn:Hrun; [|vm_compute in Hrun; discriminate Hrun].
  destruct (tool_reply_carries_the_upstream_plan_and_its_report
              sample_runtime "day" None None None None (Some "2026-12-25")
              sample_world s Hrun)
    as (resp & plan & text & Hnet & Hbody & Hformat & Hs).
  cbn in Hnet. injection Hnet as <-. cbn in Hbody. injection Hbody as <-.
  exists s, text. repeat split; assumption.
Defined.

(** ** [_generate_meal_plan_internal]: what only the report depends on *)

(** The formatter fails when the lines of the plan fail, with the same
    exception, whatever the preferences and the clock are. *)
Lemma format_fails_with_plan_lines (rt : PyRuntime) (now : datetime)
      (plan : pyval) (preferences : pydict) :
  match plan_lines rt plan with
  | Ok _ => exists text, format_meal_plan rt now plan preferences = Ok text
  | Raise e => format_meal_plan rt now plan preferences = Raise e
  end.
Proof.
  unfold format_meal_plan.
  destruct (preference_lines_ok rt preferences) as [prefs ->]. cbn [rbind].
  destruct (plan_lines rt plan); cbn [rbind]; [eexists|]; reflexivity.
Qed.

(** X8.  The family size and the event date are for the report only: the
    events of a run of [_generate_meal_plan_internal] (the request), whether
    it returns or raises, the exception it raises and the raw plan it
    returns are the same for every family size and every event date. *)
Theorem family_size_and_event_date_only_affect_the_report
        (rt : PyRuntime) (time_frame : string) (target_calories : option Z)
        (diet exclude : option string) (family_size family_size' : option Z)
        (event_date event_date' : option string) (w : world) :
  events (_generate_meal_plan_internal rt time_frame target_calories diet
                                       exclude family_size event_date) w
  = events (_generate_meal_plan_internal rt time_frame target_calories diet
                                         exclude family_size' event_date') w
  /\ raw_plan_of
       (outcome (_generate_meal_plan_internal rt time_frame target_calories
                                              diet exclude family_size
                                              event_date) w)
     = raw_plan_of
         (outcome (_generate_meal_plan_internal rt time_frame target_calories
                                                diet exclude family_size'
                                                event_date') w).
Proof.
  unfold events, outcome. rewrite !internal_run.
  destruct (SPOONACULAR_API_KEY w =? "")%string; [split; reflexivity|].
  cbn [fst snd]. split; [reflexivity|].
  destruct (network w _) as [resp|e]; cbn [rbind]; [|reflexivity].
  destruct (raise_for_status resp) as [[]|e]; cbn [rbind]; [|reflexivity].
  destruct (json_body resp) as [plan|e]; cbn [rbind]; [|reflexivity].
  pose proof (format_fails_with_plan_lines
                rt (utcnow w) plan
                (preferences_of family_size target_calories diet exclude
                                event_date)) as H1.
  pose proof (format_fails_with_plan_lines
                rt (utcnow w) plan
                (preferences_of family_size' target_calories diet exclude
                                event_date')) as H2.
  destruct (plan_lines rt plan) as [body|e].
  - destruct H1 as [t1 ->], H2 as [t2 ->]. reflexivity.
  - rewrite H1, H2. reflexivity.
Qed.

(** ** [format_meal_plan]: where it raises *)

Section ShapeErrors.

Context (rt : PyRuntime).

Lemma day_of_non_dict (m : pyval) :
  is_dict m = false ->
  exists e, day_of rt m = Raise e /\ exn_class_of e = AttributeError.
Proof.
  destruct m; try discriminate; intros _; eexists; split; reflexivity.
Qed.

Lemma group_meals_non_dict (meals : list pyval) :
  forallb is_dict meals = false ->
  forall g, exists e,
    group_meals rt meals g = Raise e /\ exn_class_of e = AttributeError.
Proof.
  induction meals as [|m meals IH]; cbn [forallb]; [discriminate|].
  intros Hsome g. cbn [group_meals].
  destruct (is_dict m) eqn:Hm.
  - destruct (day_of_dict rt m Hm) as [d ->]. cbn [rbind]. apply IH, Hsome.
  - destruct (day_of_non_dict m Hm) as (e & -> & Hcls). exists e. auto.
Qed.

Lemma item_lines_non_dict (items : list pyval) :
  forallb is_dict items = false ->
  exists e,
    concat_map_r (item_line rt) items = Raise e
    /\ exn_class_of e = AttributeError.
Proof.
  induction items as [|it items IH]; cbn [forallb]; [discriminate|].
  intros Hsome. cbn [concat_map_r].
  destruct (is_dict it) eqn:Hit.
  - destruct (item_line_dict rt it Hit) as [ls ->]. cbn [rbind].
    destruct (IH Hsome) as (e & -> & Hcls). exists e. auto.
  - destruct it; try discriminate; eexists; split; reflexivity.
Qed.

Lemma chars_from_cons (cur s : string) :
  exists c cs, chars_from cur s = c :: cs.
Proof.
  revert cur. induction s as [|a s IH]; intros cur; cbn.
  - eauto.
  - destruct (continuation a); [apply IH|eauto].
Qed.

(** The meals, the nutrients and the items, each on its own: it is well
    shaped and gives its lines, or it is not and raises. *)
Lemma meals_stage (meals : pyval) :
  if match meals with VList ms => forallb is_dict ms | _ => true end
  then exists ls,
      match meals with VList ms => meals_block rt ms | _ => Ok [] end = Ok ls
  else exists e,
      match meals with VList ms => meals_block rt ms | _ => Ok [] end = Raise e
      /\ shape_error e.
Proof.
  destruct meals as [| | | | |ms|]; try (eexists; reflexivity).
  destruct (forallb is_dict ms) eqn:Hms; [apply meals_block_dicts, Hms|].
  destruct (group_meals_non_dict ms Hms []) as (e & He & Hcls).
  exists e. unfold meals_block. rewrite He. split; [reflexivity|left; exact Hcls].
Qed.

Lemma nutrients_stage (nutrients : pyval) :
  if negb (truthy nutrients) || is_dict nutrients
  then exists ls,
      (if truthy nutrients then nutrients_block rt nutrients else Ok []) = Ok ls
  else exists e,
      (if truthy nutrients then nutrients_block rt nutrients else Ok [])
      = Raise e
      /\ shape_error e.
Proof.
  destruct (truthy nutrients) eqn:Ht; cbn [negb orb]; [|eexists; reflexivity].
  destruct nutrients; cbn [is_dict];
    try (eexists; split; [reflexivity|left; reflexivity]).
  eexists. reflexivity.
Qed.

Lemma items_stage (items : pyval) :
  if match items with
     | VList its => forallb is_dict its
     | _ => negb (truthy items)
     end
  then exists ls,
      (if truthy items then items_block rt items else Ok []) = Ok ls
  else exists e,
      (if truthy items then items_block rt items else Ok []) = Raise e
      /\ shape_error e.
Proof.
  destruct items as [|b|z|f|s|its|d].
  - eexists. reflexivity.
  - destruct b; cbn; [|eexists; reflexivity].
    eexists. split; [reflexivity|right; reflexivity].
  - cbn [truthy]. destruct (negb (z =? 0)); cbn [negb]; [|eexists; reflexivity].
    eexists. split; [reflexivity|right; reflexivity].
  - cbn [truthy]. destruct (negb (PrimFloat.eqb f 0)); cbn [negb];
      [|eexists; reflexivity].
    eexists. split; [reflexivity|right; reflexivity].
  - destruct s as [|a s]; cbn [truthy String.eqb negb]; [eexists; reflexivity|].
    unfold items_block. cbn [py_iter chars rbind].
    destruct (chars_from_cons (String a "") s) as (c & cs & ->).
    eexists. split; [reflexivity|left; reflexivity].
  - destruct (forallb is_dict its) eqn:Hits.
    + destruct its; [eexists; reflexivity|]. cbn [truthy].
      apply items_block_dicts, Hits.
    + destruct its as [|it its]; [discriminate|]. cbn [truthy].
      destruct (item_lines_non_dict (it :: its) Hits) as (e & He & Hcls).
      exists e. unfold items_block. cbn [py_iter rbind]. rewrite He.
      split; [reflexivity|left; exact Hcls].
  - destruct d as [|[k v] d]; cbn [truthy negb]; [eexists; reflexivity|].
    eexists. split; [reflexivity|left; reflexivity].
Qed.

Lemma plan_lines_raises (meal_plan : pyval) :
  well_shaped meal_plan = false ->
  exists e, plan_lines rt meal_plan = Raise e /\ shape_error e.
Proof.
  destruct meal_plan as [| | | | | |d];
    try (intros _; eexists; split; [reflexivity|left; reflexivity]).
  unfold well_shaped, plan_lines. cbn [py_get rbind]. intros Hshape.
  pose proof (meals_stage
                match dict_get "meals" d with Some x => x | None => VNone end)
    as Hmeals.
  pose proof (nutrients_stage
                match dict_get "nutrients" d with Some x => x | None => VNone end)
    as Hnutrients.
  pose proof (items_stage
                match dict_get "items" d with Some x => x | None => VNone end)
    as Hitems.
  assert (Hsame :
            match match dict_get "meals" d with Some x => x | None => VNone end
            with VList ms => forallb is_dict ms | _ => true end
            && (negb (truthy match dict_get "nutrients" d with
                             | Some x => x | None => VNone end)
                || is_dict match dict_get "nutrients" d with
                           | Some x => x | None => VNone end)
            && match match dict_get "items" d with Some x => x | None => VNone end
               with
               | VList its => forallb is_dict its
               | _ => negb (truthy match dict_get "items" d with
                                   | Some x => x | None => VNone end)
               end = false).
  { clear Hmeals Hnutrients Hitems.
    destruct (dict_get "meals" d) as [[| | | | | |]|];
      destruct (dict_get "nutrients" d) as [n|];
      destruct (dict_get "items" d) as [[| | | | | |]|]; exact Hshape. }
  clear Hshape.
  destruct (match match dict_get "meals" d with Some x => x | None => VNone end
            with VList ms => forallb is_dict ms | _ => true end).
  2: { destruct Hmeals as (e & -> & Hcls). exists e. auto. }
  destruct Hmeals as [l1 ->]. cbn [rbind].
  destruct (negb _ || is_dict _).
  2: { destruct Hnutrients as (e & -> & Hcls). exists e. auto. }
  destruct Hnutrients as [l2 ->]. cbn [rbind].
  cbn [andb] in Hsame. rewrite Hsame in Hitems.
  destruct Hitems as (e & -> & Hcls). exists e. auto.
Qed.

End ShapeErrors.

(** X10.  Outside the well-shaped plans the formatter always raises, and
    what it raises is an [AttributeError] or a [TypeError], whatever the
    preferences and the clock: with C4, it returns a text exactly on the
    well-shaped plans. *)
Theorem format_meal_plan_raises_exactly_outside_well_shaped_plans
        (rt : PyRuntime) (now : datetime) (meal_plan : pyval)
        (preferences : pydict) :
  (well_shaped meal_plan = false ->
   exists e, format_meal_plan rt now meal_plan preferences = Raise e
             /\ shape_error e)
  /\ ((exists text, format_meal_plan rt now meal_plan preferences = Ok text)
      <-> well_shaped meal_plan = true).
Proof.
  assert (Hraise : well_shaped meal_plan = false ->
                   exists e, format_meal_plan rt now meal_plan preferences
                             = Raise e /\ shape_error e).
  { intros Hshape.
    destruct (plan_lines_raises rt meal_plan Hshape) as (e & He & Hcls).
    exists e. split; [|exact Hcls].
    pose proof (format_fails_with_plan_lines rt now meal_plan preferences) as H.
    rewrite He in H. exact H. }
  split; [exact Hraise|]. split.
  - intros [text Htext]. destruct (well_shaped meal_plan); [reflexivity|].
    destruct (Hraise eq_refl) as (e & He & _). congruence.
  - intros Hshape.
    pose proof (format_fails_with_plan_lines rt now meal_plan preferences) as H.
    destruct (plan_lines_ok rt meal_plan Hshape) as [body Hbody].
    rewrite Hbody in H. exact H.
Qed.

Lemma format_meal_plan_raises_exactly_outside_well_shaped_plans_witness :
  exists e : exn,
    format_meal_plan sample_runtime november_3 (VDict [("items", VInt 5)])
                     (preferences_of None None None None None) = Raise e
    /\ shape_error e.
Proof.
  apply (proj1 (format_meal_plan_raises_exactly_outside_well_shaped_plans
                  sample_runtime november_3 (VDict [("items", VInt 5)])
                  (preferences_of None None None None None))).
  reflexivity.
Defined.

(** ** [format_meal_plan]: the preference lines and the placeholders *)

Lemma optional_line_value (rt : PyRuntime) (d : pydict) (key : string)
      (render : string -> string) :
  optional_line rt (VDict d) key render
  = Ok (if truthy (get_or_none key d)
        then [render (py_str rt (get_or_none key d))] else []).
Proof.
  unfold optional_line, py_get, py_getitem, get_or_none. cbn [rbind].
  destruct (dict_get key d) as [x|]; cbn [truthy];
    [destruct (truthy x)|]; reflexivity.
Qed.

(** X11.  The preference lines never raise and are, in this fixed order
    whatever the order of the dictionary, the lines of family size, diet,
    exclusions and calorie target, each present exactly when the
    preference is truthy: a preference that is missing, [None], 0 or the
    empty string leaves no line. *)
Theorem preference_lines_are_the_truthy_preferences_in_fixed_order
        (rt : PyRuntime) (preferences : pydict) :
  preference_lines rt preferences
  = Ok (pref_text rt "Family Size: " (get_or_none "familySize" preferences)
        +++ pref_text rt "Dietary Preference: " (get_or_none "diet" preferences)
        +++ pref_text rt "Exclusions: " (get_or_none "exclude" preferences)
        +++ pref_text rt "Daily Calorie Target: "
                      (get_or_none "targetCalories" preferences)).
Proof.
  unfold preference_lines, pref_line. rewrite !optional_line_value.
  reflexivity.
Qed.

(** X12.  In the report of a well-shaped plan with a non-empty nutrient
    summary, a nutrient that is missing is shown by the placeholder
    ("Protein: N/Ag"), while a nutrient that is there with the value
    [None] (JSON null) is shown as "None". *)
Theorem missing_nutrient_is_placeholder_null_nutrient_is_None
        (rt : PyRuntime) (d nutrients : pydict) :
  well_shaped (VDict d) = true ->
  dict_get "nutrients" d = Some (VDict nutrients) ->
  nutrients <> [] ->
  exists ls : list string,
    plan_lines rt (VDict d) = Ok ls
    /\ In "NUTRITION SUMMARY" ls
    /\ (dict_get "protein" nutrients = None -> In "Protein: N/Ag" ls)
    /\ (dict_get "protein" nutrients = Some VNone -> In "Protein: Noneg" ls).
Proof.
  intros Hshape Hnutrients Hne.
  pose proof (meals_stage rt (get_or_none "meals" d)) as Hm.
  pose proof (items_stage rt (get_or_none "items" d)) as Hi.
  unfold well_shaped in Hshape. unfold get_or_none in Hm, Hi.
  unfold plan_lines. cbn [py_get rbind].
  rewrite Hnutrients in *.
  apply andb_prop in Hshape as [Hshape Hitems].
  apply andb_prop in Hshape as [Hmeals _].
  replace (match match dict_get "meals" d with Some x => x | None => VNone end
           with VList ms => forallb is_dict ms | _ => true end)
    with true in Hm
    by (destruct (dict_get "meals" d) as [[| | | | | |]|]; auto).
  replace (match match dict_get "items" d with Some x => x | None => VNone end
           with
           | VList its => forallb is_dict its
           | _ => negb (truthy match dict_get "items" d with
                               | Some x => x | None => VNone end)
           end)
    with true in Hi
    by (destruct (dict_get "items" d) as [[| | | | | |]|]; auto).
  destruct Hm as [l1 ->]. destruct Hi as [l3 ->]. cbn [rbind].
  destruct nutrients as [|kv nutrients]; [contradiction|].
  cbn [truthy]. unfold nutrients_block. cbn [py_get rbind].
  eexists. split; [reflexivity|].
  split; [|split].
  - apply in_or_app. right. cbn. auto.
  - intros ->. apply in_or_app. right. cbn. auto 10.
  - intros ->. apply in_or_app. right. cbn. auto 10.
Qed.

Lemma missing_nutrient_is_placeholder_null_nutrient_is_None_witness :
  exists ls : list string,
    plan_lines sample_runtime sparse_plan = Ok ls
    /\ In "NUTRITION SUMMARY" ls
    /\ In "Protein: N/Ag" ls.
Proof.
  destruct (missing_nutrient_is_placeholder_null_nutrient_is_None
              sample_runtime
              [("meals", VList [VDict [("servings", VInt 2)]]);
               ("nutrients", VDict [("calories", VInt 2000)]);
               ("items", VList [VDict [("name", VStr "Rice");
                                       ("aisle", VStr "Grains")];
                                VDict []])]
              [("calories", VInt 2000)] eq_refl eq_refl ltac:(discriminate))
    as (ls & Hls & Htitle & Hmissing & _).
  exists ls. split; [exact Hls|]. split; [exact Htitle|].
  apply Hmissing. reflexivity.
Defined.

(** ** Grouping: every meal once, and meals without a day *)

Section GroupingMore.

Context (rt : PyRuntime).

Lemma flat_map_ext_in {A B : Type} (f g : A -> list B) (l : list A) :
  (forall x, In x l -> f x = g x) -> flat_map f l = flat_map g l.
Proof.
  induction l as [|x l IH]; intros Hext; cbn; [reflexivity|].
  rewrite (Hext x (or_introl eq_refl)).
  rewrite IH by (intros y Hy; apply Hext; right; exact Hy). reflexivity.
Qed.

Lemma setdefault_append_perm (d : string) (m : pyval)
      (g : list (string * list pyval)) :
  Permutation (flat_map snd (setdefault_append d m g)) (flat_map snd g +++ [m]).
Proof.
  induction g as [|[k ms] g IH]; cbn; [reflexivity|].
  destruct (k =? d)%string; cbn.
  - rewrite <- !app_assoc. apply Permutation_app_head, Permutation_app_comm.
  - rewrite <- app_assoc. apply Permutation_app_head, IH.
Qed.

Lemma group_meals_perm (meals : list pyval) :
  forall g g',
    group_meals rt meals g = Ok g' ->
    Permutation (flat_map snd g') (flat_map snd g +++ meals).
Proof.
  induction meals as [|m meals IH]; intros g g'; cbn [group_meals].
  - intros [= <-]. rewrite app_nil_r. reflexivity.
  - destruct (day_of rt m) as [d|e]; cbn [rbind]; [|discriminate].
    intros Hrun. rewrite (IH _ _ Hrun), setdefault_append_perm.
    rewrite <- app_assoc. reflexivity.
Qed.

Lemma group_of_own_keys (g : list (string * list pyval)) :
  NoDup (map fst g) ->
  flat_map (fun d => group_of d g) (map fst g) = flat_map snd g.
Proof.
  induction g as [|[k ms] g IH]; cbn [map fst flat_map snd]; [reflexivity|].
  intros Hnodup. inversion Hnodup as [|? ? Hnotin Hrest]; subst.
  cbn [group_of]. rewrite String.eqb_refl. f_equal.
  rewrite <- (IH Hrest). apply flat_map_ext_in. intros d Hd.
  cbn [group_of]. destruct (String.eqb_spec k d) as [->|_];
    [contradiction|reflexivity].
Qed.

End GroupingMore.

(** X13.  Grouping loses no meal and repeats none: for meals that are
    objects, the meals section goes over day blocks whose meals, put end to
    end, are a permutation of the original list. *)
Theorem meals_block_renders_every_meal_exactly_once
        (rt : PyRuntime) (meals : list pyval) :
  forallb is_dict meals = true ->
  exists days : list string,
    meals_block rt meals
    = concat_map_r
        (fun d => day_block rt d (filter (tagged rt d) meals)) days
    /\ Permutation (flat_map (fun d => filter (tagged rt d) meals) days) meals.
Proof.
  intros Hdicts.
  destruct (group_meals_spec rt meals Hdicts [])
    as (g & Hrun & Hgroup & Hkeys & Hnodup).
  exists (sorted (map fst g)). split.
  - unfold meals_block. rewrite Hrun. cbn [rbind].
    apply concat_map_r_ext. intros d Hd.
    apply (proj1 (LabelOrder.sorted_In _ _)) in Hd.
    rewrite (grouped_item_group_of rt d g Hd). cbn [rbind].
    rewrite Hgroup. reflexivity.
  - rewrite (flat_map_ext_in _ (fun d => group_of d g))
      by (intros d _; rewrite Hgroup; reflexivity).
    rewrite <- (LabelOrder.sorted_perm (map fst g)).
    rewrite group_of_own_keys by (apply Hnodup; constructor).
    apply (group_meals_perm rt meals [] g Hrun).
Qed.

Lemma meals_block_renders_every_meal_exactly_once_witness :
  exists days : list string,
    meals_block sample_runtime sample_meals
    = concat_map_r
        (fun d => day_block sample_runtime d
                            (filter (tagged sample_runtime d) sample_meals))
        days
    /\ Permutation
         (flat_map (fun d => filter (tagged sample_runtime d) sample_meals) days)
         sample_meals.
Proof.
  apply (meals_block_renders_every_meal_exactly_once
           sample_runtime sample_meals).
  reflexivity.
Defined.

Lemma group_untagged_meals (rt : PyRuntime) (meals acc : list pyval) :
  forallb untagged meals = true ->
  group_meals rt meals [("Unknown", acc)] = Ok [("Unknown", acc +++ meals)].
Proof.
  revert acc. induction meals as [|m meals IH]; intros acc; cbn [forallb].
  - intros _. rewrite app_nil_r. reflexivity.
  - intros H. apply andb_prop in H as [Hm Hrest].
    destruct m as [| | | | | |d]; try discriminate Hm.
    cbn [group_meals]. unfold day_of, py_get. cbn in Hm.
    destruct (dict_get "day" d); [discriminate Hm|].
    cbn [rbind py_str setdefault_append String.eqb Ascii.eqb Bool.eqb].
    rewrite (IH _ Hrest), <- app_assoc. reflexivity.
Qed.

(** X14.  Meals that carry no [day] entry, as long as there is one, all
    go into one block headed "DAY Unknown", in the order of the list. *)
Theorem meals_without_a_day_form_one_unknown_block
        (rt : PyRuntime) (meals : list pyval) :
  meals <> [] ->
  forallb untagged meals = true ->
  meals_block rt meals = day_block rt "Unknown" meals.
Proof.
  intros Hne Huntagged. destruct meals as [|m meals]; [contradiction|].
  cbn [forallb] in Huntagged. apply andb_prop in Huntagged as [Hm Hrest].
  unfold meals_block. cbn [group_meals].
  destruct m as [| | | | | |d]; try discriminate Hm.
  unfold day_of at 1, py_get. cbn in Hm.
  destruct (dict_get "day" d) eqn:Hday; [discriminate Hm|].
  cbn [rbind py_str setdefault_append].
  rewrite (group_untagged_meals rt meals [VDict d] Hrest).
  cbn [rbind map fst sorted insert_sorted concat_map_r grouped_item].
  rewrite String.eqb_refl. cbn [rbind app].
  destruct (day_block rt "Unknown" (VDict d :: meals)) as [ls|e];
    cbn [rbind]; [rewrite app_nil_r|]; reflexivity.
Qed.

Lemma meals_without_a_day_form_one_unknown_block_witness :
  meals_block sample_runtime untagged_meals
  = day_block sample_runtime "Unknown" untagged_meals.
Proof.
  apply (meals_without_a_day_form_one_unknown_block
           sample_runtime untagged_meals); [discriminate|reflexivity].
Defined.

(** X15.  A plan object in which [meals] is not a non-empty list and in
    which [nutrients] and [items] are missing or falsy (such as the answer
    for a week, whose only entry is [week]) is reported like the empty
    plan: the title, the date, the preference lines and the rule. *)
Theorem plan_without_usable_entries_is_reported_like_the_empty_plan
        (rt : PyRuntime) (now : datetime) (d preferences : pydict) :
  (forall m ms, get_or_none "meals" d <> VList (m :: ms)) ->
  truthy (get_or_none "nutrients" d) = false ->
  truthy (get_or_none "items" d) = false ->
  format_meal_plan rt now (VDict d) preferences
  = format_meal_plan rt now (VDict []) preferences.
Proof.
  unfold get_or_none. intros Hmeals Hnutrients Hitems.
  unfold format_meal_plan, plan_lines. cbn [py_get rbind dict_get].
  rewrite Hnutrients, Hitems. cbn [truthy].
  destruct (match dict_get "meals" d with Some x => x | None => VNone end)
    as [| | | | |[|m ms]|]; try reflexivity.
  contradiction (Hmeals m ms eq_refl).
Qed.

Lemma plan_without_usable_entries_is_reported_like_the_empty_plan_witness :
  format_meal_plan sample_runtime november_3
    (VDict [("week", VDict [("monday", VDict [("meals", VList sample_meals)])])])
    (preferences_of None None None None None)
  = format_meal_plan sample_runtime november_3 (VDict [])
      (preferences_of None None None None None).
Proof.
  apply (plan_without_usable_entries_is_reported_like_the_empty_plan
           sample_runtime november_3
           [("week", VDict [("monday", VDict [("meals", VList sample_meals)])])]
           (preferences_of None None None None None));
    [discriminate|reflexivity|reflexivity].
Defined.

(** ** The report at import *)

(** X16.  The line written on standard error at import says that the key
    is missing exactly when the credential is unset or empty; when there
    is a key the line shows its length only, so that two keys with the same
    number of characters give the same line. *)
Theorem startup_report_shows_the_length_of_the_key_only (w w' : world) :
  (SPOONACULAR_API_KEY w = ""
   <-> startup_report w = "❌ Spoonacular API key NOT found in environment")
  /\ (SPOONACULAR_API_KEY w <> "" ->
      SPOONACULAR_API_KEY w' <> "" ->
      py_len (SPOONACULAR_API_KEY w) = py_len (SPOONACULAR_API_KEY w') ->
      startup_report w = startup_report w').
Proof.
  unfold startup_report. split.
  - destruct (String.eqb_spec (SPOONACULAR_API_KEY w) "") as [->|Hne];
      cbn [negb]; [tauto|].
    split; [contradiction|]. cbn. discriminate.
  - intros H1 H2 Hlen.
    rewrite (proj2 (String.eqb_neq _ _) H1), (proj2 (String.eqb_neq _ _) H2).
    cbn [negb]. rewrite Hlen. reflexivity.
Qed.

Example startup_report_of_sample_world :
  startup_report sample_world = "✅ Spoonacular API key found (length: 3)"
  /\ startup_report bare_world = "❌ Spoonacular API key NOT found in environment".
Proof. split; reflexivity. Qed.

(** ** The order of the query *)

(** X17.  The keys of the query of a request come in the order
    [timeFrame], [targetCalories], [diet], [exclude], [apiKey]; the first
    and the last are always there, and each of the three in between is
    there exactly when the argument is truthy (set, and neither 0 nor the
    empty string). *)
Theorem upstream_query_keys_come_in_a_fixed_order
        (rt : PyRuntime) (time_frame : string) (target_calories : option Z)
        (diet exclude : option string) (family_size : option Z)
        (event_date : option string) (w : world) (req : request) :
  In req (requests_of
            (events (_generate_meal_plan_internal
                       rt time_frame target_calories diet exclude family_size
                       event_date) w)) ->
  dict_keys (req_params req)
  = ["timeFrame"]
    +++ (if truthy (of_opt_int target_calories) then ["targetCalories"] else [])
    +++ (if truthy (of_opt_str diet) then ["diet"] else [])
    +++ (if truthy (of_opt_str exclude) then ["exclude"] else [])
    +++ ["apiKey"].
Proof.
  rewrite internal_requests.
  destruct (SPOONACULAR_API_KEY w =? "")%string; [intros []|].
  intros [<-|[]]. unfold upstream_request, upstream_params. cbn [req_params].
  destruct (truthy (of_opt_int target_calories));
    destruct (truthy (of_opt_str diet));
    destruct (truthy (of_opt_str exclude)); reflexivity.
Qed.

Lemma upstream_query_keys_come_in_a_fixed_order_witness :
  exists req : request,
    requests_of
      (events (_generate_meal_plan_internal
                 sample_runtime "day" (Some 2000) (Some "vegetarian") (Some "")
                 None None) sample_world) = [req]
    /\ dict_keys (req_params req)
       = ["timeFrame"; "targetCalories"; "diet"; "apiKey"].
Proof.
  eexists. split; [vm_compute; reflexivity|].
  exact (upstream_query_keys_come_in_a_fixed_order
           sample_runtime "day" (Some 2000) (Some "vegetarian") (Some "")
           None None sample_world _ (or_introl eq_refl)).
Defined.

(** ** The titles of the two optional sections *)

Section Titles.

Context (rt : PyRuntime).

Ltac plain_line := split; cbn; discriminate.

Lemma concat_map_r_Forall {A : Type} (P : string -> Prop)
      (f : A -> result (list string)) (l : list A) (ls : list string) :
  (forall x xs, f x = Ok xs -> Forall P xs) ->
  concat_map_r f l = Ok ls -> Forall P ls.
Proof.
  intros Hf. revert ls. induction l as [|x l IH]; cbn; intros ls.
  - intros [= <-]. constructor.
  - destruct (f x) as [xs|e] eqn:Hx; cbn [rbind]; [|discriminate].
    destruct (concat_map_r f l) as [rest|e]; cbn [rbind]; [|discriminate].
    intros [= <-]. apply Forall_app. split; [eapply Hf; eassumption|].
    apply IH. reflexivity.
Qed.

Lemma optional_line_plain (v : pyval) (key : string)
      (render : string -> string) (ls : list string) :
  (forall x, plain (render x)) ->
  optional_line rt v key render = Ok ls -> Forall plain ls.
Proof.
  intros Hrender. unfold optional_line.
  destruct (py_get v key VNone) as [x|e]; cbn [rbind]; [|discriminate].
  destruct (truthy x); [|intros [= <-]; constructor].
  destruct (py_getitem rt v key) as [y|e]; cbn [rbind]; [|discriminate].
  intros [= <-]. constructor; [apply Hrender|constructor].
Qed.

Lemma meal_block_plain (m : pyval) (ls : list string) :
  meal_block rt m = Ok ls -> Forall plain ls.
Proof.
  unfold meal_block.
  destruct (py_get m "title" _) as [title|e]; cbn [rbind]; [|discriminate].
  destruct (optional_line rt m "readyInMinutes" _) as [l1|e] eqn:H1;
    cbn [rbind]; [|discriminate].
  destruct (optional_line rt m "servings" _) as [l2|e] eqn:H2;
    cbn [rbind]; [|discriminate].
  destruct (optional_line rt m "id" _) as [l3|e] eqn:H3;
    cbn [rbind]; [|discriminate].
  intros [= <-].
  apply optional_line_plain in H1; [|intros x; plain_line].
  apply optional_line_plain in H2; [|intros x; plain_line].
  apply optional_line_plain in H3; [|intros x; plain_line].
  constructor; [plain_line|].
  repeat (apply Forall_app; split); try assumption.
  constructor; [plain_line|constructor].
Qed.

Lemma meals_block_plain (meals : list pyval) (ls : list string) :
  meals_block rt meals = Ok ls -> Forall plain ls.
Proof.
  unfold meals_block.
  destruct (group_meals rt meals []) as [g|e]; cbn [rbind]; [|discriminate].
  apply concat_map_r_Forall. intros d xs.
  destruct (grouped_item rt d g) as [ms|e]; cbn [rbind]; [|discriminate].
  unfold day_block.
  destruct (concat_map_r (meal_block rt) ms) as [body|e] eqn:Hbody;
    cbn [rbind]; [|discriminate].
  intros [= <-].
  constructor; [plain_line|]. constructor; [plain_line|].
  apply Forall_app. split.
  - eapply concat_map_r_Forall; [|exact Hbody]. apply meal_block_plain.
  - constructor; [plain_line|constructor].
Qed.

Lemma item_line_plain (item : pyval) (ls : list string) :
  item_line rt item = Ok ls -> Forall plain ls.
Proof.
  unfold item_line.
  destruct (py_get item "name" _) as [name|e]; cbn [rbind]; [|discriminate].
  destruct (py_get item "aisle" _) as [aisle|e]; cbn [rbind]; [|discriminate].
  destruct (truthy aisle); intros [= <-];
    (constructor; [plain_line|constructor]).
Qed.

End Titles.

Section TitlesOfSections.

Context (rt : PyRuntime).

Lemma plain_not_title (ls : list string) :
  Forall plain ls ->
  ~ In "NUTRITION SUMMARY" ls /\ ~ In "GROCERY LIST" ls.
Proof.
  intros Hplain. rewrite Forall_forall in Hplain.
  split; intros Hin; destruct (Hplain _ Hin) as [H1 H2]; congruence.
Qed.

Lemma nutrients_block_titles (nutrients : pyval) (ls : list string) :
  nutrients_block rt nutrients = Ok ls ->
  In "NUTRITION SUMMARY" ls /\ ~ In "GROCERY LIST" ls.
Proof.
  unfold nutrients_block.
  destruct (py_get nutrients "calories" _) as [c|e]; cbn [rbind]; [|discriminate].
  destruct (py_get nutrients "protein" _) as [p|e]; cbn [rbind]; [|discriminate].
  destruct (py_get nutrients "fat" _) as [f|e]; cbn [rbind]; [|discriminate].
  destruct (py_get nutrients "carbohydrates" _) as [cb|e]; cbn [rbind];
    [|discriminate].
  intros [= <-]. split; [cbn; auto|].
  cbn. intros H.
  repeat match type of H with
         | _ \/ _ => destruct H as [H|H]
         end; try discriminate H; exact H.
Qed.

Lemma items_block_titles (items : pyval) (ls : list string) :
  items_block rt items = Ok ls ->
  In "GROCERY LIST" ls /\ ~ In "NUTRITION SUMMARY" ls.
Proof.
  unfold items_block.
  destruct (py_iter items) as [its|e]; cbn [rbind]; [|discriminate].
  destruct (concat_map_r (item_line rt) its) as [body|e] eqn:Hbody;
    cbn [rbind]; [|discriminate].
  intros [= <-]. split; [cbn; auto|].
  assert (Hplain : Forall plain body)
    by (eapply concat_map_r_Forall; [apply item_line_plain|exact Hbody]).
  apply plain_not_title in Hplain as [Hplain _].
  cbn. intros [H|[H|[H|H]]]; try discriminate H. exact (Hplain H).
Qed.

End TitlesOfSections.

(** X18.  Whenever the lines of a plan object are produced, the title
    "NUTRITION SUMMARY" is among them exactly when [nutrients] is truthy,
    and the title "GROCERY LIST" exactly when [items] is truthy: a section
    that is missing, [None] or empty leaves no title behind, and no meal,
    day or item line can be taken for one. *)
Theorem section_titles_appear_exactly_with_their_sections
        (rt : PyRuntime) (d : pydict) (ls : list string) :
  plan_lines rt (VDict d) = Ok ls ->
  (In "NUTRITION SUMMARY" ls <-> truthy (get_or_none "nutrients" d) = true)
  /\ (In "GROCERY LIST" ls <-> truthy (get_or_none "items" d) = true).
Proof.
  unfold plan_lines, get_or_none. cbn [py_get rbind].
  set (meals := match dict_get "meals" d with Some x => x | None => VNone end).
  set (nutrients :=
         match dict_get "nutrients" d with Some x => x | None => VNone end).
  set (items := match dict_get "items" d with Some x => x | None => VNone end).
  destruct (match meals with VList ms => meals_block rt ms | _ => Ok [] end)
    as [l1|e] eqn:H1; cbn [rbind]; [|discriminate].
  destruct (if truthy nutrients then nutrients_block rt nutrients else Ok [])
    as [l2|e] eqn:H2; cbn [rbind]; [|discriminate].
  destruct (if truthy items then items_block rt items else Ok [])
    as [l3|e] eqn:H3; cbn [rbind]; [|discriminate].
  intros [= <-].
  assert (Hl1 : ~ In "NUTRITION SUMMARY" l1 /\ ~ In "GROCERY LIST" l1).
  { apply plain_not_title.
    destruct meals; try (injection H1 as <-; constructor).
    eapply meals_block_plain, H1. }
  assert (Hl2 : (In "NUTRITION SUMMARY" l2 <-> truthy nutrients = true)
                /\ ~ In "GROCERY LIST" l2).
  { destruct (truthy nutrients).
    - apply nutrients_block_titles in H2 as [Hin Hout]. tauto.
    - injection H2 as <-. cbn. intuition discriminate. }
  assert (Hl3 : (In "GROCERY LIST" l3 <-> truthy items = true)
                /\ ~ In "NUTRITION SUMMARY" l3).
  { destruct (truthy items).
    - apply items_block_titles in H3 as [Hin Hout]. tauto.
    - injection H3 as <-. cbn. intuition discriminate. }
  rewrite !in_app_iff. tauto.
Qed.

Lemma section_titles_appear_exactly_with_their_sections_witness :
  exists ls : list string,
    plan_lines sample_runtime sample_plan = Ok ls
    /\ ~ In "NUTRITION SUMMARY" ls
    /\ ~ In "GROCERY LIST" ls.
Proof.
  destruct (plan_lines sample_runtime sample_plan) as [ls|e] eqn:Hls;
    [|vm_compute in Hls; discriminate Hls].
  exists ls. split; [reflexivity|].
  destruct (section_titles_appear_exactly_with_their_sections
              sample_runtime [("meals", VList sample_meals)] ls Hls)
    as [[Hn _] [Hi _]].
  split; intros Hin; [apply Hn in Hin|apply Hi in Hin]; discriminate Hin.
Defined.
